(** * BrightSky integration: a shallow embedding of the coordinator,
      the sensor and weather accessors, and the entry set-up.

    The development follows the Python sources:
    - [weather_update_coordinator.py]: refresh, hourly window, daily aggregation;
    - [sensor.py]: [_get_current_sensor_value];
    - [weather.py]: the accessors of the weather entity;
    - [__init__.py]: the scan interval used at set-up;
    - [const.py]: the condition and icon tables.

    Numbers are exact rationals ([Q]): comparison, minimum and maximum are
    exact in Python too, while the rounding of float sums and quotients is
    not modelled. *)

From Stdlib Require Import List String Ascii Bool Arith ZArith QArith Lia.
From Stdlib Require Import Sorting.Sorted Lqa.
Import ListNotations.

Close Scope Q_scope.

(** ** Python values, exceptions and the few built-ins the sources use *)

Module Py.

(** A decoded JSON document as Python holds it. A [dict] is an association
    list read through its first binding of a key (a decoded JSON object has
    one binding per key). *)
#[warnings="-register-all"]
Inductive value : Type :=
| VNone
| VBool (b : bool)
| VNum (q : Q)
| VStr (s : string)
| VList (l : list value)
| VDict (d : list (string * value)).

Inductive exn : Type :=
| AttributeError
| TypeError
| ValueError.

Inductive result (A : Type) : Type :=
| Ok (a : A)
| Raise (e : exn).

Arguments Ok {A} a.
Arguments Raise {A} e.

Definition bind {A B} (m : result A) (k : A -> result B) : result B :=
  match m with
  | Ok a => k a
  | Raise e => Raise e
  end.

(** [try: body / except Exception: handler] *)
Definition try_except {A} (body : result A) (handler : result A) : result A :=
  match body with
  | Ok a => Ok a
  | Raise _ => handler
  end.

(** Truth value testing: [None], [False], zero, and empty strings, lists
    and dicts are false. *)
Definition truthy (v : value) : bool :=
  match v with
  | VNone => false
  | VBool b => b
  | VNum q => negb (Qeq_bool q 0)
  | VStr s => negb (String.eqb s "")
  | VList l => match l with [] => false | _ :: _ => true end
  | VDict d => match d with [] => false | _ :: _ => true end
  end.

Fixpoint lookup {A} (k : string) (d : list (string * A)) : option A :=
  match d with
  | [] => None
  | (k', v) :: r => if String.eqb k k' then Some v else lookup k r
  end.

(** [d.get(k)] on a dict: the value, or [None]. *)
Definition dict_get (d : list (string * value)) (k : string) : value :=
  match lookup k d with
  | Some v => v
  | None => VNone
  end.

(** [v.get(k)] on any value: only a dict has the method. *)
Definition get (v : value) (k : string) : result value :=
  match v with
  | VDict d => Ok (dict_get d k)
  | _ => Raise AttributeError
  end.

(** [table.get(k, default)] on a dict with string keys, looked up with any
    value: lists and dicts are unhashable. *)
Definition table_get (table : list (string * string)) (k : value) (default : string)
  : result string :=
  match k with
  | VStr s => Ok (match lookup s table with Some v => v | None => default end)
  | VList _ | VDict _ => Raise TypeError
  | _ => Ok default
  end.

(** [v / n] for a number [n]: true division; [bool] is a subclass of
    [int]. *)
Definition truediv (v : value) (n : Q) : result value :=
  match v with
  | VNum q => Ok (VNum (q / n)%Q)
  | VBool b => Ok (VNum ((if b then 1 else 0) / n)%Q)
  | _ => Raise TypeError
  end.

(** [l[:n]]: a negative bound counts from the end. *)
Definition slice_upto {A} (l : list A) (n : Z) : list A :=
  if (0 <=? n)%Z then firstn (Z.to_nat n) l
  else firstn (List.length l - Z.to_nat (- n)) l.

(** [s.replace("Z", "+00:00")] *)
Fixpoint replace_Z (s : string) : string :=
  match s with
  | EmptyString => EmptyString
  | String c r =>
      if Ascii.eqb c "Z"%char then ("+00:00" ++ replace_Z r)%string
      else String c (replace_Z r)
  end.

Definition Qlt_bool (x y : Q) : bool := negb (Qle_bool y x).

(** [min(l)] and [max(l)] on a non-empty list of numbers: the first
    smallest, resp. largest, element. *)
Definition min (l : list Q) : option Q :=
  match l with
  | [] => None
  | x :: r => Some (fold_left (fun m y => if Qlt_bool y m then y else m) r x)
  end.

Definition max (l : list Q) : option Q :=
  match l with
  | [] => None
  | x :: r => Some (fold_left (fun m y => if Qlt_bool m y then y else m) r x)
  end.

(** [sum(l)]: from [0], left to right. *)
Definition sum (l : list Q) : Q := fold_left Qplus l 0%Q.

(** [max(it, key=f)]: the first element of the iteration whose key is
    largest. *)
Definition max_by {A} (key : A -> nat) (l : list A) : option A :=
  match l with
  | [] => None
  | x :: r => Some (fold_left (fun m y => if key m <? key y then y else m) r x)
  end.

End Py.

Notation "x <- m ;; k" := (Py.bind m (fun x => k))
  (at level 61, m at next level, right associativity).

(** ** Dates and times, as the [datetime] module presents them *)

Module Datetime.

Record date : Type := Date { year : nat; month : nat; day : nat }.

(** The part of a parsed [datetime] the sources read: [dt.date()] and
    [dt.hour], both in the offset the timestamp itself carries. *)
Record datetime : Type := DateTime { dt_date : date; hour : nat }.

Definition date_eqb (a b : date) : bool :=
  (year a =? year b) && (month a =? month b) && (day a =? day b).

(** Chronological order of calendar dates. *)
Definition date_lt (a b : date) : Prop :=
  year a < year b \/
  (year a = year b /\ (month a < month b \/ (month a = month b /\ day a < day b))).

Definition date_le (a b : date) : Prop := a = b \/ date_lt a b.

Definition digit (n : nat) : ascii := ascii_of_nat (48 + n mod 10).

Definition pad2 (n : nat) : string :=
  String (digit (n / 10)) (String (digit n) EmptyString).

Definition pad4 (n : nat) : string :=
  String (digit (n / 1000)) (String (digit (n / 100)) (pad2 n)).

(** [str(date)], i.e. [date.isoformat()]: [YYYY-MM-DD]. *)
Definition isoformat (d : date) : string :=
  (pad4 (year d) ++ "-" ++ pad2 (month d) ++ "-" ++ pad2 (day d))%string.

(** *** A parser for the examples

    [datetime.fromisoformat] is library code; the aggregation is stated for
    an arbitrary parser. The concrete runs below use this one, which reads
    the format the service emits, [YYYY-MM-DDTHH:MM:SS] with an optional
    [+HH:MM] or [-HH:MM] offset, and refuses everything else. *)

Definition digit_of (c : ascii) : option nat :=
  let n := nat_of_ascii c in
  if (48 <=? n) && (n <=? 57) then Some (n - 48) else None.

Fixpoint digits (k : nat) (acc : nat) (s : string) : option (nat * string) :=
  match k with
  | O => Some (acc, s)
  | S k' =>
      match s with
      | String c r =>
          match digit_of c with
          | Some d => digits k' (10 * acc + d) r
          | None => None
          end
      | EmptyString => None
      end
  end.

Definition expect (c : ascii) (s : string) : option string :=
  match s with
  | String c' r => if Ascii.eqb c c' then Some r else None
  | EmptyString => None
  end.

Definition is_leap (y : nat) : bool :=
  ((y mod 4 =? 0) && negb (y mod 100 =? 0)) || (y mod 400 =? 0).

Definition days_in_month (y m : nat) : nat :=
  match m with
  | 2 => if is_leap y then 29 else 28
  | 4 | 6 | 9 | 11 => 30
  | _ => 31
  end.

Definition parse_offset (s : string) : option unit :=
  match s with
  | EmptyString => Some tt
  | String c r =>
      if Ascii.eqb c "+"%char || Ascii.eqb c "-"%char then
        match digits 2 0 r with
        | Some (oh, r1) =>
            match expect ":"%char r1 with
            | Some r2 =>
                match digits 2 0 r2 with
                | Some (om, EmptyString) =>
                    if (oh <? 24) && (om <? 60) then Some tt else None
                | _ => None
                end
            | None => None
            end
        | None => None
        end
      else None
  end.

Definition parse_time (s : string) : option nat :=
  match digits 2 0 s with
  | Some (h, r1) =>
      match expect ":"%char r1 with
      | Some r2 =>
          match digits 2 0 r2 with
          | Some (mi, r3) =>
              match expect ":"%char r3 with
              | Some r4 =>
                  match digits 2 0 r4 with
                  | Some (se, r5) =>
                      match parse_offset r5 with
                      | Some _ =>
                          if (h <? 24) && (mi <? 60) && (se <? 60) then Some h
                          else None
                      | None => None
                      end
                  | None => None
                  end
              | None => None
              end
          | None => None
          end
      | None => None
      end
  | None => None
  end.

Definition parse_date (s : string) : option (date * string) :=
  match digits 4 0 s with
  | Some (y, r1) =>
      match expect "-"%char r1 with
      | Some r2 =>
          match digits 2 0 r2 with
          | Some (m, r3) =>
              match expect "-"%char r3 with
              | Some r4 =>
                  match digits 2 0 r4 with
                  | Some (d, r5) =>
                      if (1 <=? y) && (1 <=? m) && (m <=? 12) && (1 <=? d)
                         && (d <=? days_in_month y m)
                      then Some (Date y m d, r5) else None
                  | None => None
                  end
              | None => None
              end
          | None => None
          end
      | None => None
      end
  | None => None
  end.

Definition fromisoformat_basic (s : string) : option datetime :=
  match parse_date s with
  | Some (d, r) =>
      match expect "T"%char r with
      | Some r' =>
          match parse_time r' with
          | Some h => Some (DateTime d h)
          | None => None
          end
      | None => None
      end
  | None => None
  end.

End Datetime.

(** ** const.py *)

Module Const.


Definition CONDITION_MAP : list (string * string) :=
  [ ("dry", "sunny"); ("fog", "fog"); ("rain", "rainy");
    ("sleet", "snowy-rainy"); ("snow", "snowy"); ("hail", "hail");
    ("thunderstorm", "lightning") ]%string.

Definition ICON_MAP : list (string * string) :=
  [ ("clear-day", "sunny"); ("clear-night", "clear-night");
    ("partly-cloudy-day", "partlycloudy");
    ("partly-cloudy-night", "partlycloudy"); ("cloudy", "cloudy");
    ("fog", "fog"); ("wind", "windy"); ("rain", "rainy");
    ("sleet", "snowy-rainy"); ("snow", "snowy"); ("hail", "hail");
    ("thunderstorm", "lightning") ]%string.

End Const.

(** ** weather_update_coordinator.py *)

Module Coordinator.
Import Py Datetime.

(** One hourly entry of the forecast response. [timestamp] is the value of
    [h.get("timestamp", "")], of any JSON shape. The measurements are
    numbers and the codes are strings, as the service documents them;
    [None] stands for an absent key or a JSON [null], which [h.get(k)]
    does not tell apart. *)
Record hour_entry : Type := HourEntry {
  timestamp : value;
  temperature : option Q;
  precipitation : option Q;
  pressure_msl : option Q;
  relative_humidity : option Q;
  cloud_cover : option Q;
  wind_speed : option Q;
  condition : option string;
  icon : option string
}.

(** The dict [_aggregate_daily_data] returns, key by key: ["timestamp"],
    ["temperature_min"], ["temperature_max"], ["precipitation"],
    ["pressure_msl"], ["relative_humidity"], ["cloud_cover"],
    ["wind_speed"], ["condition"], ["icon"]. A field is what [.get] of its
    key yields, so the empty dict is [empty_summary]. *)
Record summary : Type := Summary {
  daily_timestamp : option string;
  temperature_min : option Q;
  temperature_max : option Q;
  daily_precipitation : option Q;
  daily_pressure_msl : option Q;
  daily_relative_humidity : option Q;
  daily_cloud_cover : option Q;
  daily_wind_speed : option Q;
  daily_condition : option string;
  daily_icon : option string
}.

Definition empty_summary : summary :=
  Summary None None None None None None None None None None.

(** [self.data] once a refresh has succeeded: the dict
    [{"current": current_data, "forecast": forecast_data}]. [current] is the
    decoded response of the current-weather call; [forecast] is the forecast
    response read through [.get("weather", [])]. *)
Record payload : Type := Payload {
  current : value;
  forecast : list hour_entry
}.

Definition get_current_weather (data : option payload) : result value :=
  match data with
  | None => Ok VNone
  | Some p =>
      weather_data <- get (current p) "weather" ;;
      Ok weather_data
  end.

Definition get_hourly_forecast (data : option payload) (hours : Z) : list hour_entry :=
  match data with
  | None => []
  | Some p => slice_upto (forecast p) hours
  end.

Definition _condition_to_icon (condition : string) : string :=
  match lookup condition
          [ ("dry", "clear-day"); ("fog", "fog"); ("rain", "rain");
            ("sleet", "sleet"); ("snow", "snow"); ("hail", "hail");
            ("thunderstorm", "thunderstorm") ]%string with
  | Some i => i
  | None => "clear-day"%string
  end.

(** [x or 0] *)
Definition or_zero (x : option Q) : Q :=
  match x with
  | Some q => if Qeq_bool q 0 then 0%Q else q
  | None => 0%Q
  end.

(** [[h.get(k) for h in hourly_data if h.get(k) is not None]] *)
Definition present (field : hour_entry -> option Q) (hourly_data : list hour_entry)
  : list Q :=
  flat_map (fun h => match field h with Some x => [x] | None => [] end) hourly_data.

(** [sum(l) / len(l) if l else None] *)
Definition average (l : list Q) : option Q :=
  match l with
  | [] => None
  | _ :: _ => Some (sum l / inject_Z (Z.of_nat (List.length l)))%Q
  end.

(** [bool(h.get("condition"))] *)
Definition condition_set (c : option string) : bool :=
  match c with
  | Some s => negb (String.eqb s "")
  | None => false
  end.

Section Aggregation.

(** [datetime.fromisoformat]; [None] is its [ValueError]. *)
Variable fromisoformat : string -> option datetime.

(** The order in which iterating [set(l)] yields the distinct elements of
    [l]; Python leaves it to the hash table. *)
Variable set_iter : list string -> list string.

(** [datetime.fromisoformat(timestamp.replace("Z", "+00:00"))] inside
    [try ... except (ValueError, AttributeError)]: a value that is not a
    string has no [replace]. *)
Definition parse_timestamp (timestamp : value) : option datetime :=
  match timestamp with
  | VStr s => fromisoformat (replace_Z s)
  | _ => None
  end.

Definition daytime_conditions (hourly_data : list hour_entry) : list string :=
  flat_map
    (fun h =>
       match parse_timestamp (timestamp h) with
       | Some dt =>
           if (6 <=? hour dt) && (hour dt <=? 18) && condition_set (condition h)
           then match condition h with Some c => [c] | None => [] end
           else []
       | None => []
       end)
    hourly_data.

Definition _aggregate_daily_data (hourly_data : list hour_entry) (date : date) : summary :=
  match hourly_data with
  | [] => empty_summary
  | first :: _ =>
      let temps := present temperature hourly_data in
      let temp_min := match temps with [] => None | _ :: _ => min temps end in
      let temp_max := match temps with [] => None | _ :: _ => max temps end in
      let precip_sum := sum (map (fun h => or_zero (precipitation h)) hourly_data) in
      let avg_pressure := average (present pressure_msl hourly_data) in
      let avg_humidity := average (present relative_humidity hourly_data) in
      let avg_cloud_cover := average (present cloud_cover hourly_data) in
      let avg_wind_speed := average (present wind_speed hourly_data) in
      let daytime := daytime_conditions hourly_data in
      let '(condition_, icon_) :=
        match daytime with
        | _ :: _ =>
            let c := max_by (fun x => count_occ string_dec daytime x) (set_iter daytime) in
            (c, option_map _condition_to_icon c)
        | [] => (condition first, icon first)
        end in
      {| daily_timestamp := Some (isoformat date ++ "T12:00:00+00:00")%string;
         temperature_min := temp_min;
         temperature_max := temp_max;
         daily_precipitation := Some precip_sum;
         daily_pressure_msl := avg_pressure;
         daily_relative_humidity := avg_humidity;
         daily_cloud_cover := avg_cloud_cover;
         daily_wind_speed := avg_wind_speed;
         daily_condition := condition_;
         daily_icon := icon_ |}
  end.

(** The variables of the grouping loop of [get_daily_forecast]. *)
Record loop_state : Type := LoopState {
  current_date : option date;
  daily_data : list hour_entry;
  daily_forecasts : list summary
}.

(** One pass through the body of [for hour_data in hourly_data]. *)
Definition loop_body (st : loop_state) (hour_data : hour_entry) : loop_state :=
  let timestamp := timestamp hour_data in
  if negb (truthy timestamp) then st
  else
    match parse_timestamp timestamp with
    | None => st
    | Some dt =>
        let date := dt_date dt in
        let current_date :=
          match current_date st with None => date | Some c => c end in
        if negb (date_eqb date current_date) then
          let daily_forecasts :=
            match daily_data st with
            | _ :: _ =>
                daily_forecasts st ++ [_aggregate_daily_data (daily_data st) current_date]
            | [] => daily_forecasts st
            end in
          LoopState (Some date) ([] ++ [hour_data]) daily_forecasts
        else
          LoopState (Some current_date) (daily_data st ++ [hour_data]) (daily_forecasts st)
    end.

(** The statements after the loop: the last day's data. *)
Definition loop_end (st : loop_state) : list summary :=
  match daily_data st, current_date st with
  | _ :: _, Some c => daily_forecasts st ++ [_aggregate_daily_data (daily_data st) c]
  | _, _ => daily_forecasts st
  end.

Definition get_daily_forecast (data : option payload) (days : Z) : list summary :=
  let hourly_data := get_hourly_forecast data (days * 24) in
  match hourly_data with
  | [] => []
  | _ :: _ =>
      let st := fold_left loop_body hourly_data (LoopState None [] []) in
      slice_upto (loop_end st) days
  end.

End Aggregation.

(** *** Refresh *)

(** What a call of the service can raise inside [_async_update_data]:
    aiohttp's [ClientError], or any other [Exception]; the text is
    [str(err)]. *)
Inductive fetch_error : Type :=
| ClientError (text : string)
| OtherError (text : string).

(** [UpdateFailed(message)] raised [from err]. *)
Record update_failed : Type := UpdateFailed {
  message : string;
  cause : fetch_error
}.

(** The outcome of the two calls of one refresh; the second is made only
    when the first has returned. *)
Record responses : Type := Responses {
  current_response : value + fetch_error;
  forecast_response : list hour_entry + fetch_error
}.

(** The coordinator's own attributes, with the error log it writes. *)
Record coordinator : Type := CoordinatorState {
  data : option payload;
  _connect_error : bool;
  error_log : list string
}.

Definition on_error (self : coordinator) (err : fetch_error)
  : coordinator * (payload + update_failed) :=
  match err with
  | ClientError text =>
      let self' :=
        if negb (_connect_error self) then
          CoordinatorState (data self) true
            (error_log self ++ [("Error communicating with BrightSky API: " ++ text)%string])
        else self in
      (self', inr (UpdateFailed ("Error communicating with API: " ++ text)%string err))
  | OtherError text =>
      (CoordinatorState (data self) (_connect_error self)
         (error_log self ++ [("Unexpected error fetching BrightSky data: " ++ text)%string]),
       inr (UpdateFailed ("Unexpected error: " ++ text)%string err))
  end.

Definition _async_update_data (self : coordinator) (r : responses)
  : coordinator * (payload + update_failed) :=
  match current_response r with
  | inl current_data =>
      match forecast_response r with
      | inl forecast_data =>
          (CoordinatorState (data self) false (error_log self),
           inl (Payload current_data forecast_data))
      | inr err => on_error self err
      end
  | inr err => on_error self err
  end.

(** Modelled from the spec: the refresh of the host's polling framework
    (its [DataUpdateCoordinator] is not part of this repository) stores
    what [_async_update_data] returns and stores nothing when it raises. *)
Definition async_refresh (self : coordinator) (r : responses) : coordinator :=
  match _async_update_data self r with
  | (self', inl new_data) =>
      CoordinatorState (Some new_data) (_connect_error self') (error_log self')
  | (self', inr _) => self'
  end.

End Coordinator.

(** ** sensor.py *)

Module Sensor.
Import Py Coordinator.

Definition _get_current_sensor_value (data : option payload) (key : string)
  : result value :=
  match data with
  | None => Ok VNone
  | Some p =>
      current_weather <- get (current p) "weather" ;;
      if negb (truthy current_weather) then Ok VNone
      else
        match
          match current_weather with
          | VList (x :: _) => Some x
          | VDict _ => Some current_weather
          | _ => None
          end
        with
        | None => Ok VNone
        | Some current_data =>
            if negb (truthy current_data) then Ok VNone
            else get current_data key
        end
  end.

Definition _is_sensor_data_available (data : option payload) : result bool :=
  match data with
  | None => Ok false
  | Some p =>
      current_weather <- get (current p) "weather" ;;
      if negb (truthy current_weather) then Ok false
      else
        match current_weather with
        | VList l => Ok (0 <? List.length l)
        | VDict _ => Ok (truthy current_weather)
        | _ => Ok false
        end
  end.

End Sensor.

(** ** weather.py *)

Module Weather.
Import Py Const Coordinator.

(** The body shared by [native_temperature], [native_pressure], [humidity],
    [native_wind_speed], [wind_bearing], [native_wind_gust_speed],
    [native_dew_point] and [cloud_coverage], which differ in the key. *)
Definition current_field (key : string) (data : option payload) : result value :=
  current <- get_current_weather data ;;
  if negb (truthy current) then Ok VNone
  else
    try_except
      match current with
      | VList l =>
          match l with
          | [] => Ok VNone
          | x :: _ => if truthy x then get x key else Ok VNone
          end
      | VDict _ => get current key
      | _ => Ok VNone
      end
      (Ok VNone).

Definition native_temperature := current_field "temperature".
Definition native_pressure := current_field "pressure_msl".
Definition humidity := current_field "relative_humidity".
Definition native_wind_speed := current_field "wind_speed".
Definition wind_bearing := current_field "wind_direction".
Definition native_wind_gust_speed := current_field "wind_gust_speed".
Definition native_dew_point := current_field "dew_point".
Definition cloud_coverage := current_field "cloud_cover".

Definition visibility (data : option payload) : result value :=
  current <- get_current_weather data ;;
  if negb (truthy current) then Ok VNone
  else
    try_except
      (visibility <-
         match current with
         | VList l =>
             match l with
             | [] => Ok VNone
             | x :: _ => if truthy x then get x "visibility" else Ok VNone
             end
         | VDict _ => get current "visibility"
         | _ => Ok VNone
         end ;;
       match visibility with
       | VNone => Ok VNone
       | _ => truediv visibility 1000
       end)
      (Ok VNone).

(** The steps [condition] applies to the record it has picked: the icon
    first, then the condition code, then the default. *)
Definition icon_then_condition (item : value) : result value :=
  icon <- get item "icon" ;;
  if truthy icon then
    c <- table_get ICON_MAP icon "sunny" ;; Ok (VStr c)
  else
    condition <- get item "condition" ;;
    if truthy condition then
      c <- table_get CONDITION_MAP condition "sunny" ;; Ok (VStr c)
    else Ok (VStr "sunny").

Definition condition (data : option payload) : result value :=
  current <- get_current_weather data ;;
  match current with
  | VNone => Ok (VStr "sunny")
  | _ =>
      try_except
        match current with
        | VList l =>
            match l with
            | [] => Ok (VStr "sunny")
            | first_item :: _ =>
                if negb (truthy first_item) then Ok (VStr "sunny")
                else icon_then_condition first_item
            end
        | VDict _ => icon_then_condition current
        | _ => Ok (VStr "sunny")
        end
        (Ok (VStr "sunny"))
  end.

(** The [Forecast] dict [_map_daily_forecast] builds, key by key:
    ["datetime"], ["condition"], ["native_temperature"], ["native_templow"],
    ["native_precipitation"], ["precipitation_probability"],
    ["native_pressure"], ["humidity"], ["cloud_coverage"],
    ["native_wind_speed"], ["native_wind_gust_speed"], ["wind_bearing"]. *)
Record forecast_entry : Type := ForecastEntry {
  fc_datetime : string;
  fc_condition : string;
  fc_native_temperature : option Q;
  fc_native_templow : option Q;
  fc_native_precipitation : option Q;
  fc_precipitation_probability : option Q;
  fc_native_pressure : option Q;
  fc_humidity : option Q;
  fc_cloud_coverage : option Q;
  fc_native_wind_speed : option Q;
  fc_native_wind_gust_speed : option Q;
  fc_wind_bearing : option Q
}.

(** [table.get(k, default)] for a key read with [.get] from a summary: a
    string, or [None], which is no key of the table. *)
Definition table_get_opt (table : list (string * string)) (k : option string)
  (default : string) : string :=
  match k with
  | Some s => match lookup s table with Some v => v | None => default end
  | None => default
  end.

(** On a daily summary. Its ["timestamp"] is a string, or is missing from
    the empty dict; [utc_from_timestamp] raises [TypeError] on both, so the
    [except] branch always runs: [timestamp = forecast.get("timestamp", "")].
    A summary has no ["wind_direction"]. *)
Definition _map_daily_forecast (forecast : summary) : forecast_entry :=
  let timestamp :=
    match daily_timestamp forecast with
    | Some t => t
    | None => ""%string
    end in
  {| fc_datetime := timestamp;
     fc_condition := table_get_opt ICON_MAP (daily_icon forecast) "sunny";
     fc_native_temperature := temperature_max forecast;
     fc_native_templow := temperature_min forecast;
     fc_native_precipitation := daily_precipitation forecast;
     fc_precipitation_probability := None;
     fc_native_pressure := daily_pressure_msl forecast;
     fc_humidity := daily_relative_humidity forecast;
     fc_cloud_coverage := daily_cloud_cover forecast;
     fc_native_wind_speed := daily_wind_speed forecast;
     fc_native_wind_gust_speed := None;
     fc_wind_bearing := None |}.

(** [get_daily_forecast()] is called with its default of 7 days. *)
Definition _async_forecast_daily
  (fromisoformat : string -> option Datetime.datetime)
  (set_iter : list string -> list string)
  (data : option payload) : option (list forecast_entry) :=
  match get_daily_forecast fromisoformat set_iter data 7 with
  | [] => None
  | forecasts => Some (map _map_daily_forecast forecasts)
  end.

End Weather.

(** ** __init__.py *)

Module Init.
Import Py Const.






End Init.

Import Py Datetime Const Coordinator.

(** ** Notions the statements use *)

Definition date_eq_dec (a b : date) : {a = b} + {a <> b}.
Proof.
  decide equality; apply Nat.eq_dec.
Defined.

Section DailyNotions.

Variable fromisoformat : string -> option datetime.

(** The calendar date the grouping loop reads off an entry; [None] when the
    timestamp is missing (false as a truth value) or does not parse. *)
Definition entry_date (h : hour_entry) : option date :=
  if truthy (timestamp h)
  then option_map dt_date (parse_timestamp fromisoformat (timestamp h))
  else None.

Definition parsable (h : hour_entry) : bool :=
  match entry_date h with Some _ => true | None => false end.

(** The entries that carry a date, each with its date, in input order. *)
Definition dated (l : list hour_entry) : list (date * hour_entry) :=
  flat_map (fun h => match entry_date h with Some d => [(d, h)] | None => [] end) l.

(** The number of distinct calendar dates among the entries. *)
Definition distinct_dates (l : list hour_entry) : nat :=
  List.length (nodup date_eq_dec (map fst (dated l))).

(** The entries come in chronological order of their dates. *)
Definition chronological (l : list hour_entry) : Prop :=
  StronglySorted date_le (map fst (dated l)).

(** The local hour of the entry lies in the daytime window. *)
Definition in_daytime_window (h : hour_entry) : bool :=
  match parse_timestamp fromisoformat (timestamp h) with
  | Some dt => (6 <=? hour dt) && (hour dt <=? 18)
  | None => false
  end.

(** The condition codes of the daytime entries that have one. *)
Definition daytime_votes (group : list hour_entry) : list string :=
  flat_map (fun h => match condition h with Some c => [c] | None => [] end)
    (filter (fun h => in_daytime_window h && condition_set (condition h)) group).

End DailyNotions.

(** The partition of a dated sequence into maximal runs of one date, as the
    specification words it: a run ends where the date changes. *)
Fixpoint group_runs (l : list (date * hour_entry)) : list (date * list hour_entry) :=
  match l with
  | [] => []
  | (d, h) :: r =>
      match group_runs r with
      | (d', g) :: rs =>
          if date_eqb d d' then (d, h :: g) :: rs
          else (d, [h]) :: (d', g) :: rs
      | [] => [(d, [h])]
      end
  end.

(** The run that is open when the scan reaches [l], followed through [l]. *)
Definition runs_from (c : date) (dd : list hour_entry) (l : list (date * hour_entry))
  : list (date * list hour_entry) :=
  match group_runs l with
  | (d', g) :: rs =>
      if date_eqb c d' then (c, dd ++ g) :: rs else (c, dd) :: (d', g) :: rs
  | [] => [(c, dd)]
  end.

(** Neighbouring elements differ. *)
Fixpoint adjacent_distinct (ds : list date) : Prop :=
  match ds with
  | a :: (b :: _) as r => a <> b /\ adjacent_distinct r
  | _ => True
  end.

(** One summary per run. *)
Definition summaries_of (fromisoformat : string -> option datetime)
  (set_iter : list string -> list string) (runs : list (date * list hour_entry))
  : list summary :=
  map (fun r => _aggregate_daily_data fromisoformat set_iter (snd r) (fst r)) runs.

(** The first call of a refresh that raises, if one does. *)
Definition first_failure (r : responses) : option fetch_error :=
  match current_response r with
  | inr err => Some err
  | inl _ =>
      match forecast_response r with
      | inr err => Some err
      | inl _ => None
      end
  end.

(** The current-weather record, as the specification's normalizer words
    it: the object under ["weather"], or the first element of the array
    under it when that is an object; [None] for an empty object, an empty
    array and any other shape. *)
Definition normalize (w : value) : option (list (string * value)) :=
  match w with
  | VDict (b :: d) => Some (b :: d)
  | VList (VDict (b :: d) :: _) => Some (b :: d)
  | _ => None
  end.

(** A field of the normalized record; [VNone] when there is no record. *)
Definition record_field (r : option (list (string * value))) (key : string) : value :=
  match r with
  | Some rec => dict_get rec key
  | None => VNone
  end.

(** The array under ["weather"], if it is one, starts with an object or
    with a value that is false. *)
Definition head_is_object_or_false (w : value) : Prop :=
  forall x r, w = VList (x :: r) -> truthy x = true -> exists d, x = VDict d.

(** A refresh succeeds when both calls return; this is its payload. *)
Definition fetched (r : responses) : option payload :=
  match current_response r, forecast_response r with
  | inl c, inl f => Some (Payload c f)
  | _, _ => None
  end.

(** The coordinator after a sequence of refreshes, oldest first. *)
Definition refreshes (self : coordinator) (rs : list responses) : coordinator :=
  fold_left async_refresh rs self.

(** The refresh fails with a transport error. *)
Definition transport_failure (r : responses) : Prop :=
  exists text, first_failure r = Some (ClientError text).


(** The stamp of a daily summary: noon of its date, at offset zero. *)
Definition noon (d : date) : string := (isoformat d ++ "T12:00:00+00:00")%string.

(** *** Concrete inputs *)

Definition entry_at (ts : string) (t : option Q) (c i : option string) : hour_entry :=
  HourEntry (VStr ts) t None None None None None c i.

(** Iteration of a set in order of first occurrence, for the concrete runs. *)
Definition first_occurrence_order : list string -> list string := nodup string_dec.

Definition daily (hourly : list hour_entry) (days : Z) : list summary :=
  get_daily_forecast fromisoformat_basic first_occurrence_order
    (Some (Payload VNone hourly)) days.

Definition day1_day2_day1 : list hour_entry :=
  [ entry_at "2024-01-01T10:00:00Z" (Some 1%Q) None None;
    entry_at "2024-01-02T10:00:00Z" (Some 2%Q) None None;
    entry_at "2024-01-01T11:00:00Z" (Some 3%Q) None None ].

Definition bad_then_good : list hour_entry :=
  [ entry_at "bad" None None None;
    entry_at "2024-01-01T10:00:00Z" (Some 1%Q) None None ].

Definition only_bad : list hour_entry := [ entry_at "bad" (Some 1%Q) None None ].

(** A day with rain at 08h and 15h, dry weather at 12h, and two entries
    outside the daytime window. *)
Definition rainy_day : list hour_entry :=
  [ entry_at "2024-01-01T05:00:00Z" None (Some "fog") (Some "fog");
    entry_at "2024-01-01T08:00:00Z" None (Some "rain") (Some "rain");
    entry_at "2024-01-01T12:00:00Z" None (Some "dry") (Some "clear-day");
    entry_at "2024-01-01T15:00:00Z" None (Some "rain") (Some "rain");
    entry_at "2024-01-01T20:00:00Z" None (Some "dry") (Some "clear-night") ]%string.

Definition with_weather (w : value) : option payload :=
  Some (Payload (VDict [("weather"%string, w)]) []).

(** * Properties *)

(** ** Dates *)

Lemma date_eqb_spec (a b : date) : reflect (a = b) (date_eqb a b).
Proof.
  destruct a as [y m d], b as [y' m' d']; unfold date_eqb; simpl.
  destruct (Nat.eqb_spec y y'), (Nat.eqb_spec m m'), (Nat.eqb_spec d d');
    simpl; constructor; congruence.
Qed.

Lemma date_eqb_refl (a : date) : date_eqb a a = true.
Proof. destruct (date_eqb_spec a a); congruence. Qed.

Lemma date_lt_irrefl (a : date) : ~ date_lt a a.
Proof. unfold date_lt; lia. Qed.

Lemma date_lt_trans (a b c : date) : date_lt a b -> date_lt b c -> date_lt a c.
Proof. unfold date_lt; lia. Qed.

Lemma date_le_lt_trans (a b c : date) : date_le a b -> date_lt b c -> date_lt a c.
Proof.
  intros [-> | Hab] Hbc; [assumption | eapply date_lt_trans; eassumption].
Qed.

(** ** The grouping loop *)

Section Grouping.

Variable fromisoformat : string -> option datetime.
Variable set_iter : list string -> list string.

Local Abbreviation body := (loop_body fromisoformat set_iter).
Local Abbreviation finish := (loop_end fromisoformat set_iter).
Local Abbreviation aggregate := (_aggregate_daily_data fromisoformat set_iter).
Local Abbreviation date_of := (entry_date fromisoformat).
Local Abbreviation with_dates := (dated fromisoformat).
Local Abbreviation summaries := (summaries_of fromisoformat set_iter).

(** An entry without a date leaves every variable of the loop as it was. *)
Lemma loop_body_skip st h : date_of h = None -> body st h = st.
Proof.
  unfold entry_date, loop_body.
  destruct (truthy (timestamp h)); simpl; [| reflexivity].
  destruct (parse_timestamp fromisoformat (timestamp h)); simpl;
    [discriminate | reflexivity].
Qed.

(** An entry of the date of the open run joins it. *)
Lemma loop_body_same c dd df h :
  date_of h = Some c ->
  body (LoopState (Some c) dd df) h = LoopState (Some c) (dd ++ [h]) df.
Proof.
  unfold entry_date, loop_body.
  destruct (truthy (timestamp h)); simpl; [| discriminate].
  destruct (parse_timestamp fromisoformat (timestamp h)) as [dt |]; simpl;
    [| discriminate].
  intros [= <-]. rewrite date_eqb_refl. reflexivity.
Qed.

(** An entry of another date closes the open run and opens its own. *)
Lemma loop_body_change c x dd df h d :
  date_of h = Some d -> d <> c ->
  body (LoopState (Some c) (x :: dd) df) h
  = LoopState (Some d) [h] (df ++ [aggregate (x :: dd) c]).
Proof.
  unfold entry_date, loop_body.
  destruct (truthy (timestamp h)); simpl; [| discriminate].
  destruct (parse_timestamp fromisoformat (timestamp h)) as [dt |]; simpl;
    [| discriminate].
  intros [= <-] Hne.
  destruct (date_eqb_spec (dt_date dt) c); [contradiction | reflexivity].
Qed.

(** The first dated entry opens the first run. *)
Lemma loop_body_first h d :
  date_of h = Some d ->
  body (LoopState None [] []) h = LoopState (Some d) [h] [].
Proof.
  unfold entry_date, loop_body.
  destruct (truthy (timestamp h)); simpl; [| discriminate].
  destruct (parse_timestamp fromisoformat (timestamp h)) as [dt |]; simpl;
    [| discriminate].
  intros [= <-]. rewrite date_eqb_refl. reflexivity.
Qed.

Lemma runs_from_same c dd h r :
  runs_from c (dd ++ [h]) r = runs_from c dd ((c, h) :: r).
Proof.
  unfold runs_from; simpl.
  destruct (group_runs r) as [| [d' g] rs]; simpl.
  - rewrite date_eqb_refl. reflexivity.
  - destruct (date_eqb_spec c d') as [<- | Hne].
    + rewrite date_eqb_refl, <- app_assoc. reflexivity.
    + rewrite date_eqb_refl. reflexivity.
Qed.

Lemma runs_from_change c dd d h r :
  d <> c -> runs_from c dd ((d, h) :: r) = (c, dd) :: runs_from d [h] r.
Proof.
  intros Hne. unfold runs_from; simpl.
  destruct (group_runs r) as [| [d' g] rs]; simpl.
  - destruct (date_eqb_spec c d); [congruence | reflexivity].
  - destruct (date_eqb_spec d d') as [<- | Hne'];
      destruct (date_eqb_spec c d); try congruence; reflexivity.
Qed.

Lemma runs_from_head d h r : runs_from d [h] r = group_runs ((d, h) :: r).
Proof.
  unfold runs_from; simpl.
  destruct (group_runs r) as [| [d' g] rs]; reflexivity.
Qed.

(** The invariant of the scan: with a run open, what the loop and its
    closing statements emit is what was emitted before, then the
    summaries of the open run followed through the rest of the input. *)
Lemma scan_open l : forall c x dd df,
  finish (fold_left body l (LoopState (Some c) (x :: dd) df))
  = df ++ summaries (runs_from c (x :: dd) (with_dates l)).
Proof.
  induction l as [| h l IH]; intros c x dd df.
  - reflexivity.
  - simpl fold_left. unfold dated; simpl flat_map. fold (dated fromisoformat l).
    destruct (date_of h) as [d |] eqn:Hd.
    + destruct (date_eq_dec d c) as [-> | Hne].
      * rewrite loop_body_same by assumption. simpl app.
        rewrite (IH c x (dd ++ [h]) df).
        change (x :: dd ++ [h]) with ((x :: dd) ++ [h]).
        rewrite runs_from_same. reflexivity.
      * rewrite (loop_body_change c x dd df h d Hd Hne). simpl app.
        rewrite (IH d h [] _), runs_from_change by assumption.
        unfold summaries_of; simpl.
        rewrite <- app_assoc. reflexivity.
    + rewrite loop_body_skip by assumption. simpl app. apply IH.
Qed.

(** The loop emits one summary per maximal run of one date, in order. *)
Lemma scan_runs l :
  finish (fold_left body l (LoopState None [] []))
  = summaries (group_runs (with_dates l)).
Proof.
  induction l as [| h l IH].
  - reflexivity.
  - simpl fold_left. unfold dated; simpl flat_map. fold (dated fromisoformat l).
    destruct (date_of h) as [d |] eqn:Hd.
    + rewrite (loop_body_first h d Hd), scan_open, runs_from_head. reflexivity.
    + rewrite loop_body_skip by assumption. simpl app. exact IH.
Qed.

End Grouping.

(** ** Runs *)

Lemma group_runs_flatten l :
  flat_map (fun r => map (pair (fst r)) (snd r)) (group_runs l) = l.
Proof.
  induction l as [| [d h] l IH]; [reflexivity |].
  simpl. destruct (group_runs l) as [| [d' g] rs].
  - simpl in *. rewrite <- IH. reflexivity.
  - destruct (date_eqb_spec d d') as [<- | Hne]; simpl in *; rewrite <- IH;
      reflexivity.
Qed.

Lemma group_runs_nonempty l : Forall (fun r => snd r <> []) (group_runs l).
Proof.
  induction l as [| [d h] l IH]; [constructor |].
  simpl. destruct (group_runs l) as [| [d' g] rs].
  - repeat constructor. discriminate.
  - destruct (date_eqb d d').
    + inversion IH; subst. constructor; [discriminate | assumption].
    + constructor; [discriminate | assumption].
Qed.

Lemma group_runs_adjacent l : adjacent_distinct (map fst (group_runs l)).
Proof.
  induction l as [| [d h] l IH]; [exact I |].
  simpl. destruct (group_runs l) as [| [d' g] rs].
  - exact I.
  - destruct (date_eqb_spec d d') as [<- | Hne].
    + exact IH.
    + split; assumption.
Qed.

Lemma group_runs_dates_incl l : incl (map fst (group_runs l)) (map fst l).
Proof.
  induction l as [| [d h] l IH]; [apply incl_refl |].
  simpl. destruct (group_runs l) as [| [d' g] rs].
  - intros x [<- | []]. left; reflexivity.
  - destruct (date_eqb_spec d d') as [<- | Hne]; simpl in *.
    + intros x [<- | Hx]; [left; reflexivity | right; apply IH; right; exact Hx].
    + intros x [<- | Hx]; [left; reflexivity | right; apply IH; exact Hx].
Qed.

Lemma group_runs_nil l : group_runs l = [] -> l = [].
Proof.
  destruct l as [| [d h] l]; [reflexivity |].
  simpl. destruct (group_runs l) as [| [d' g] rs]; [discriminate |].
  destruct (date_eqb d d'); discriminate.
Qed.

(** On a chronological input the dates of the runs strictly increase. *)
Lemma group_runs_increasing l :
  StronglySorted date_le (map fst l) ->
  StronglySorted date_lt (map fst (group_runs l)).
Proof.
  induction l as [| [d h] l IH]; intros Hs; [constructor |].
  simpl in Hs. apply StronglySorted_inv in Hs. destruct Hs as [Hs Hall].
  specialize (IH Hs). simpl.
  pose proof (group_runs_dates_incl l) as Hincl.
  destruct (group_runs l) as [| [d' g] rs]; simpl in *.
  - repeat constructor.
  - destruct (date_eqb_spec d d') as [<- | Hne]; simpl; [exact IH |].
    apply StronglySorted_inv in IH. destruct IH as [IH Hlt].
    assert (Hdd' : date_lt d d').
    { rewrite Forall_forall in Hall.
      destruct (Hall d' (Hincl d' (or_introl eq_refl))) as [-> | H];
        [contradiction | exact H]. }
    constructor.
    + constructor; assumption.
    + constructor; [exact Hdd' |].
      rewrite Forall_forall in *. intros x Hx.
      eapply date_lt_trans; [exact Hdd' | apply Hlt; exact Hx].
Qed.

Lemma increasing_NoDup ds : StronglySorted date_lt ds -> NoDup ds.
Proof.
  induction 1 as [| a ds Hs IH Hall]; constructor; [| exact IH].
  intros Hin. rewrite Forall_forall in Hall.
  exact (date_lt_irrefl a (Hall a Hin)).
Qed.

(** ** The daily forecast as runs of the hourly window *)

Section DailyForecast.

Variable fromisoformat : string -> option datetime.
Variable set_iter : list string -> list string.

Local Abbreviation forecast_of := (get_daily_forecast fromisoformat set_iter).
Local Abbreviation with_dates := (dated fromisoformat).
Local Abbreviation summaries := (summaries_of fromisoformat set_iter).

Lemma slice_upto_nil (A : Type) (n : Z) : slice_upto (@nil A) n = [].
Proof.
  unfold slice_upto. destruct (0 <=? n)%Z; apply firstn_nil.
Qed.

Lemma slice_upto_all (A : Type) (l : list A) (n : Z) :
  (Z.of_nat (List.length l) <= n)%Z -> slice_upto l n = l.
Proof.
  intros H. unfold slice_upto.
  destruct (Z.leb_spec 0 n); [| lia].
  apply firstn_all2. lia.
Qed.

Lemma slice_upto_length (A : Type) (l : list A) (n : Z) :
  (0 <= n)%Z -> List.length (slice_upto l n) = Nat.min (Z.to_nat n) (List.length l).
Proof.
  intros H. unfold slice_upto.
  destruct (Z.leb_spec 0 n); [| lia].
  apply length_firstn.
Qed.

Lemma get_daily_forecast_runs data days :
  forecast_of data days
  = slice_upto
      (summaries (group_runs (with_dates (get_hourly_forecast data (days * 24)))))
      days.
Proof.
  unfold get_daily_forecast.
  destruct (get_hourly_forecast data (days * 24)) as [| h l] eqn:E.
  - simpl. symmetry. apply slice_upto_nil.
  - rewrite scan_runs. reflexivity.
Qed.

Lemma summaries_length runs : List.length (summaries runs) = List.length runs.
Proof. apply length_map. Qed.

Lemma dated_app l1 l2 : with_dates (l1 ++ l2) = with_dates l1 ++ with_dates l2.
Proof. apply flat_map_app. Qed.

Lemma dated_skip h : entry_date fromisoformat h = None -> with_dates [h] = [].
Proof. intros H. unfold dated; simpl. rewrite H. reflexivity. Qed.

Lemma dated_cons h l :
  with_dates (h :: l)
  = match entry_date fromisoformat h with
    | Some d => (d, h) :: with_dates l
    | None => with_dates l
    end.
Proof.
  unfold dated; cbn [flat_map].
  destruct (entry_date fromisoformat h); reflexivity.
Qed.

Lemma dated_filter l : with_dates (filter (parsable fromisoformat) l) = with_dates l.
Proof.
  induction l as [| h l IH]; [reflexivity |].
  cbn [filter]. unfold parsable at 1. rewrite (dated_cons h l).
  destruct (entry_date fromisoformat h) as [d |] eqn:Hd.
  - rewrite dated_cons, Hd, IH. reflexivity.
  - exact IH.
Qed.

Lemma dated_In l d h :
  In (d, h) (with_dates l) <-> In h l /\ entry_date fromisoformat h = Some d.
Proof.
  unfold dated. rewrite in_flat_map. split.
  - intros [x [Hx Hin]]. destruct (entry_date fromisoformat x) as [d' |] eqn:E.
    + destruct Hin as [[= <- <-] | []]. split; assumption.
    + destruct Hin.
  - intros [Hin Hd]. exists h. split; [assumption |]. rewrite Hd. left; reflexivity.
Qed.

End DailyForecast.

Lemma StronglySorted_prefix (A : Type) (R : A -> A -> Prop) (l1 l2 : list A) :
  StronglySorted R (l1 ++ l2) -> StronglySorted R l1.
Proof.
  induction l1 as [| a l1 IH]; intros H; [constructor |].
  simpl in H. apply StronglySorted_inv in H. destruct H as [Hs Hall].
  constructor; [apply IH; exact Hs |].
  apply Forall_app in Hall. tauto.
Qed.

(** The hourly window of a payload is a prefix of its forecast when the
    bound is not negative. *)
Lemma window_prefix c hourly hours :
  (0 <= hours)%Z ->
  exists rest,
    hourly = get_hourly_forecast (Some (Payload c hourly)) hours ++ rest.
Proof.
  intros H. unfold get_hourly_forecast, slice_upto; simpl.
  destruct (Z.leb_spec 0 hours); [| lia].
  exists (skipn (Z.to_nat hours) hourly). symmetry. apply firstn_skipn.
Qed.

(** ** C3: grouping by contiguous runs *)

(** C3. The daily forecast holds one summary per maximal contiguous run of
    one calendar date in the hourly window, in scan order (cut to [days]):
    the runs, flattened, are the dated entries in their order, no run is
    empty, and neighbouring runs have different dates. A date that comes
    back after another one therefore opens a new group: entries dated
    day1, day2, day1 give three summaries. *)
Theorem daily_grouping_contiguous_runs :
  forall (fromisoformat : string -> option datetime)
         (set_iter : list string -> list string),
    (forall data days,
        get_daily_forecast fromisoformat set_iter data days
        = slice_upto
            (summaries_of fromisoformat set_iter
               (group_runs
                  (dated fromisoformat (get_hourly_forecast data (days * 24)))))
            days)
    /\ (forall l,
          flat_map (fun r => map (pair (fst r)) (snd r)) (group_runs l) = l
          /\ Forall (fun r => snd r <> []) (group_runs l)
          /\ adjacent_distinct (map fst (group_runs l)))
    /\ (forall c h1 h2 h3 d1 d2 days,
          entry_date fromisoformat h1 = Some d1 ->
          entry_date fromisoformat h2 = Some d2 ->
          entry_date fromisoformat h3 = Some d1 ->
          d1 <> d2 ->
          (3 <= days)%Z ->
          List.length
            (get_daily_forecast fromisoformat set_iter
               (Some (Payload c [h1; h2; h3])) days) = 3).
Proof.
  intros fi si. split; [| split].
  - intros data days. apply get_daily_forecast_runs.
  - intros l. split; [apply group_runs_flatten |].
    split; [apply group_runs_nonempty | apply group_runs_adjacent].
  - intros c h1 h2 h3 d1 d2 days H1 H2 H3 Hne Hdays.
    rewrite get_daily_forecast_runs.
    unfold get_hourly_forecast; cbn [forecast].
    rewrite (slice_upto_all _ [h1; h2; h3]) by (simpl; lia).
    rewrite !dated_cons, H1, H2, H3. simpl.
    destruct (date_eqb_spec d2 d1) as [E | _]; [congruence |].
    destruct (date_eqb_spec d1 d2) as [E | _]; [congruence |].
    rewrite slice_upto_length by lia. simpl. lia.
Qed.

(** The three-summary run of C3 on concrete timestamps. *)
Lemma daily_grouping_contiguous_runs_witness :
  List.length (daily day1_day2_day1 7) = 3.
Proof.
  unfold daily, day1_day2_day1.
  apply (proj2 (proj2 (daily_grouping_contiguous_runs fromisoformat_basic
                         first_occurrence_order))
           VNone _ _ _ (Date 2024 1 1) (Date 2024 1 2) 7%Z);
    [reflexivity | reflexivity | reflexivity | discriminate | lia].
Defined.

(** ** C4: entries without a usable timestamp *)

(** C4. An entry whose timestamp is missing or does not parse changes no
    variable of the grouping loop, so it starts no group and joins none;
    taking it out of an input that fits the hourly window, or taking all
    such entries out of the window, leaves the daily forecast as it is;
    every summary aggregates a run made of dated entries of the window
    only; and an unparsable entry followed by one entry of 2024-01-01
    gives the single summary of 2024-01-01. *)
Theorem unparsable_entries_skipped :
  map daily_timestamp (daily bad_then_good 7)
  = [Some "2024-01-01T12:00:00+00:00"%string]
  /\ forall (fromisoformat : string -> option datetime)
            (set_iter : list string -> list string),
      (forall st h,
          entry_date fromisoformat h = None ->
          loop_body fromisoformat set_iter st h = st)
      /\ (forall c l1 bad l2 days,
            entry_date fromisoformat bad = None ->
            (Z.of_nat (List.length (l1 ++ bad :: l2)) <= days * 24)%Z ->
            get_daily_forecast fromisoformat set_iter
              (Some (Payload c (l1 ++ bad :: l2))) days
            = get_daily_forecast fromisoformat set_iter
                (Some (Payload c (l1 ++ l2))) days)
      /\ (forall c hourly days,
            (0 <= days)%Z ->
            get_daily_forecast fromisoformat set_iter (Some (Payload c hourly)) days
            = get_daily_forecast fromisoformat set_iter
                (Some (Payload c
                         (filter (parsable fromisoformat)
                            (get_hourly_forecast (Some (Payload c hourly))
                               (days * 24)))))
                days)
      /\ (forall data days,
            get_daily_forecast fromisoformat set_iter data days
            = slice_upto
                (summaries_of fromisoformat set_iter
                   (group_runs
                      (dated fromisoformat
                         (get_hourly_forecast data (days * 24)))))
                days
            /\ forall d h,
                In (d, h)
                  (dated fromisoformat (get_hourly_forecast data (days * 24))) ->
                In h (get_hourly_forecast data (days * 24))
                /\ entry_date fromisoformat h = Some d).
Proof.
  split; [vm_compute; reflexivity |].
  intros fi si. split; [| split; [| split]].
  - intros st h. apply loop_body_skip.
  - intros c l1 bad l2 days Hbad Hlen.
    rewrite !get_daily_forecast_runs.
    unfold get_hourly_forecast; cbn [forecast].
    assert (Hlen' : (Z.of_nat (List.length (l1 ++ l2)) <= days * 24)%Z).
    { pose proof Hlen as H. rewrite length_app in H |- *.
      cbn [List.length] in H. lia. }
    rewrite (slice_upto_all _ (l1 ++ bad :: l2) _ Hlen),
      (slice_upto_all _ (l1 ++ l2) _ Hlen').
    change (bad :: l2) with ([bad] ++ l2).
    rewrite !dated_app, (dated_skip fi bad Hbad). reflexivity.
  - intros c hourly days Hdays.
    rewrite !get_daily_forecast_runs.
    unfold get_hourly_forecast; cbn [forecast].
    set (window := slice_upto hourly (days * 24)).
    assert (Hw : (Z.of_nat (List.length window) <= days * 24)%Z).
    { unfold window. rewrite slice_upto_length by lia. lia. }
    rewrite (slice_upto_all _ (filter (parsable fi) window)).
    + rewrite dated_filter. reflexivity.
    + pose proof (filter_length_le (parsable fi) window). lia.
  - intros data days. split; [apply get_daily_forecast_runs |].
    intros d h. apply dated_In.
Qed.

(** C4 on a concrete input: a stamp that does not parse in the middle of a
    day. *)
Lemma unparsable_entries_skipped_witness :
  daily [ entry_at "2024-01-01T10:00:00Z" (Some 1%Q) None None;
          entry_at "bad" (Some 9%Q) None None;
          entry_at "2024-01-01T11:00:00Z" (Some 3%Q) None None ] 7
  = daily [ entry_at "2024-01-01T10:00:00Z" (Some 1%Q) None None;
            entry_at "2024-01-01T11:00:00Z" (Some 3%Q) None None ] 7.
Proof.
  unfold daily.
  apply (proj1 (proj2 (proj2 unparsable_entries_skipped fromisoformat_basic
                         first_occurrence_order))
           VNone [entry_at "2024-01-01T10:00:00Z" (Some 1%Q) None None]
           (entry_at "bad" (Some 9%Q) None None)
           [entry_at "2024-01-01T11:00:00Z" (Some 3%Q) None None] 7%Z);
    [reflexivity | simpl; lia].
Defined.

(** ** C1: how many summaries *)

(** C1, as stated, fails twice. Entries dated day1, day2, day1 give three
    summaries for two distinct dates; and a non-empty input whose only
    timestamp does not parse gives no summary. *)
Lemma summary_count_counterexample :
  ~ (List.length (daily day1_day2_day1 7)
     <= distinct_dates fromisoformat_basic day1_day2_day1)
  /\ ~ (only_bad <> [] -> 1 <= List.length (daily only_bad 7)).
Proof.
  split.
  - vm_compute. lia.
  - intros H. assert (Hne : only_bad <> []) by discriminate.
    specialize (H Hne). vm_compute in H. lia.
Qed.

(** C1, amended. For [days >= 1]: when the dated entries come in
    chronological order, the daily forecast has no more summaries than
    there are distinct calendar dates among the input entries; and it has
    at least one summary whenever one of the entries of the hourly window
    (the first [24 * days]) carries a date. *)
Theorem summary_count_bounds :
  forall (fromisoformat : string -> option datetime)
         (set_iter : list string -> list string)
         (c : value) (hourly : list hour_entry) (days : Z),
    (1 <= days)%Z ->
    (chronological fromisoformat hourly ->
     List.length
       (get_daily_forecast fromisoformat set_iter (Some (Payload c hourly)) days)
     <= distinct_dates fromisoformat hourly)
    /\ ((exists h,
            In h (get_hourly_forecast (Some (Payload c hourly)) (days * 24))
            /\ parsable fromisoformat h = true) ->
        1 <= List.length
               (get_daily_forecast fromisoformat set_iter
                  (Some (Payload c hourly)) days)).
Proof.
  intros fi si c hourly days Hdays.
  rewrite get_daily_forecast_runs, slice_upto_length, summaries_length by lia.
  set (window := get_hourly_forecast (Some (Payload c hourly)) (days * 24)).
  split.
  - intros Hchron.
    destruct (window_prefix c hourly (days * 24)) as [rest Hrest]; [lia |].
    fold window in Hrest.
    assert (Hsplit : dated fi hourly = dated fi window ++ dated fi rest).
    { rewrite Hrest at 1. apply dated_app. }
    unfold chronological in Hchron. rewrite Hsplit, map_app in Hchron.
    apply StronglySorted_prefix in Hchron.
    apply group_runs_increasing, increasing_NoDup in Hchron.
    etransitivity; [apply Nat.le_min_r |].
    rewrite <- (length_map fst (group_runs (dated fi window))).
    unfold distinct_dates. apply NoDup_incl_length; [exact Hchron |].
    intros d Hd. apply nodup_In. apply group_runs_dates_incl in Hd.
    rewrite Hsplit, map_app. apply in_or_app. left; exact Hd.
  - intros [h [Hin Hp]].
    unfold parsable in Hp.
    destruct (entry_date fi h) as [d |] eqn:Hd; [| discriminate].
    assert (Hdated : In (d, h) (dated fi window)) by (apply dated_In; auto).
    destruct (group_runs (dated fi window)) as [| r rs] eqn:E.
    + apply group_runs_nil in E. rewrite E in Hdated. destruct Hdated.
    + simpl. lia.
Qed.

(** The two bounds of C1 on a chronological input of two days. *)
Lemma summary_count_bounds_witness :
  List.length
    (daily [ entry_at "2024-01-01T10:00:00Z" (Some 10%Q) None None;
             entry_at "2024-01-01T14:00:00Z" (Some 20%Q) None None;
             entry_at "2024-01-02T10:00:00Z" (Some 5%Q) None None ] 7)
  <= 2.
Proof.
  unfold daily.
  refine (proj1 (summary_count_bounds fromisoformat_basic first_occurrence_order
                   VNone _ 7%Z _) _).
  - lia.
  - unfold chronological. vm_compute.
    repeat constructor; unfold date_le, date_lt; simpl; lia.
Defined.

(** ** C8: minimum and maximum temperature of a day *)

Lemma Qlt_bool_true x y : Qlt_bool x y = true -> (x < y)%Q.
Proof.
  unfold Qlt_bool. intros H. apply negb_true_iff in H.
  apply Qnot_le_lt. intros Hle. apply Qle_bool_iff in Hle. congruence.
Qed.

Lemma Qlt_bool_false x y : Qlt_bool x y = false -> (y <= x)%Q.
Proof.
  unfold Qlt_bool. intros H. apply negb_false_iff in H.
  apply Qle_bool_iff. exact H.
Qed.

(** The running minimum of [min] is an element seen so far and a lower
    bound of all of them. *)
Lemma min_fold r : forall x,
  let m := fold_left (fun m y => if Qlt_bool y m then y else m) r x in
  In m (x :: r) /\ forall t, In t (x :: r) -> (m <= t)%Q.
Proof.
  induction r as [| y r IH]; intros x; simpl.
  - split; [left; reflexivity |]. intros t [<- | []]. apply Qle_refl.
  - destruct (Qlt_bool y x) eqn:E.
    + destruct (IH y) as [Hin Hle]. split.
      * right. exact Hin.
      * intros t [<- | Ht]; [| apply Hle; exact Ht].
        apply Qle_trans with y; [apply Hle; left; reflexivity |].
        apply Qlt_le_weak, Qlt_bool_true, E.
    + destruct (IH x) as [Hin Hle]. split.
      * destruct Hin as [<- | Hin]; [left; reflexivity | right; right; exact Hin].
      * intros t [<- | [<- | Ht]].
        -- apply Hle; left; reflexivity.
        -- apply Qle_trans with x; [apply Hle; left; reflexivity |].
           apply Qlt_bool_false, E.
        -- apply Hle; right; exact Ht.
Qed.

Lemma max_fold r : forall x,
  let m := fold_left (fun m y => if Qlt_bool m y then y else m) r x in
  In m (x :: r) /\ forall t, In t (x :: r) -> (t <= m)%Q.
Proof.
  induction r as [| y r IH]; intros x; simpl.
  - split; [left; reflexivity |]. intros t [<- | []]. apply Qle_refl.
  - destruct (Qlt_bool x y) eqn:E.
    + destruct (IH y) as [Hin Hle]. split.
      * right. exact Hin.
      * intros t [<- | Ht]; [| apply Hle; exact Ht].
        apply Qle_trans with y; [| apply Hle; left; reflexivity].
        apply Qlt_le_weak, Qlt_bool_true, E.
    + destruct (IH x) as [Hin Hle]. split.
      * destruct Hin as [<- | Hin]; [left; reflexivity | right; right; exact Hin].
      * intros t [<- | [<- | Ht]].
        -- apply Hle; left; reflexivity.
        -- apply Qle_trans with x; [| apply Hle; left; reflexivity].
           apply Qlt_bool_false, E.
        -- apply Hle; right; exact Ht.
Qed.

Lemma present_In field group t :
  In t (present field group) <-> exists h, In h group /\ field h = Some t.
Proof.
  unfold present. rewrite in_flat_map. split.
  - intros [h [Hh Hin]]. exists h. split; [exact Hh |].
    destruct (field h) as [x |]; [| destruct Hin].
    destruct Hin as [-> | []]. reflexivity.
  - intros [h [Hh Hf]]. exists h. split; [exact Hh |].
    rewrite Hf. left; reflexivity.
Qed.

(** The two temperature fields of a summary, read off the code. *)
Lemma aggregate_temperature fromisoformat set_iter first rest date :
  let s := _aggregate_daily_data fromisoformat set_iter (first :: rest) date in
  let temps := present temperature (first :: rest) in
  temperature_min s = match temps with [] => None | _ :: _ => Py.min temps end
  /\ temperature_max s = match temps with [] => None | _ :: _ => Py.max temps end.
Proof.
  unfold _aggregate_daily_data.
  destruct (daytime_conditions fromisoformat (first :: rest)); split; reflexivity.
Qed.

(** C8. The temperatures a day's minimum and maximum are taken over are
    exactly those of the entries of the group that report one. When there
    is none, both are [None]; otherwise the minimum is one of them and a
    lower bound of all, the maximum is one of them and an upper bound of
    all. For a group of one entry with temperature [t], both are [t], and
    so they are in the one summary of a forecast of that single entry. *)
Theorem daily_temperature_min_max :
  forall (fromisoformat : string -> option datetime)
         (set_iter : list string -> list string)
         (group : list hour_entry) (date : date),
    let s := _aggregate_daily_data fromisoformat set_iter group date in
    let temps := present temperature group in
    (forall t, In t temps <-> exists h, In h group /\ temperature h = Some t)
    /\ (temps = [] -> temperature_min s = None /\ temperature_max s = None)
    /\ (temps <> [] ->
        exists lo hi,
          temperature_min s = Some lo /\ temperature_max s = Some hi
          /\ In lo temps /\ In hi temps
          /\ forall t, In t temps -> (lo <= t)%Q /\ (t <= hi)%Q)
    /\ (forall h t,
          group = [h] -> temperature h = Some t ->
          temperature_min s = Some t /\ temperature_max s = Some t)
    /\ (forall c h t d days,
          entry_date fromisoformat h = Some d -> temperature h = Some t ->
          (1 <= days)%Z ->
          exists s1,
            get_daily_forecast fromisoformat set_iter (Some (Payload c [h])) days
            = [s1]
            /\ temperature_min s1 = Some t /\ temperature_max s1 = Some t).
Proof.
  intros fi si group date s temps.
  split; [intros t; apply present_In |].
  split; [| split; [| split]].
  - intros Ht. subst s.
    destruct group as [| first rest]; [split; reflexivity |].
    destruct (aggregate_temperature fi si first rest date) as [-> ->].
    fold temps. rewrite Ht. split; reflexivity.
  - intros Ht. subst s.
    destruct group as [| first rest]; [contradiction Ht; reflexivity |].
    destruct (aggregate_temperature fi si first rest date) as [-> ->].
    fold temps. destruct temps as [| x r]; [contradiction Ht; reflexivity |].
    destruct (min_fold r x) as [Hmin_in Hmin].
    destruct (max_fold r x) as [Hmax_in Hmax].
    eexists; eexists.
    split; [reflexivity |]. split; [reflexivity |].
    split; [exact Hmin_in |]. split; [exact Hmax_in |].
    intros t Hin; split; [apply Hmin | apply Hmax]; exact Hin.
  - intros h t -> Ht. subst s.
    destruct (aggregate_temperature fi si h [] date) as [-> ->].
    unfold present; cbn [flat_map]. rewrite Ht. split; reflexivity.
  - intros c h t d days Hd Ht Hdays.
    rewrite get_daily_forecast_runs.
    unfold get_hourly_forecast; cbn [forecast].
    rewrite (slice_upto_all _ [h]) by (simpl; lia).
    rewrite dated_cons, Hd. cbn [dated flat_map group_runs summaries_of map fst snd].
    rewrite slice_upto_all by (simpl; lia).
    eexists. split; [reflexivity |].
    destruct (aggregate_temperature fi si h [] d) as [-> ->].
    unfold present; cbn [flat_map]. rewrite Ht. split; reflexivity.
Qed.

(** C8 on the spec's example of a single hourly entry. *)
Lemma daily_temperature_min_max_witness :
  exists s1,
    daily [entry_at "2024-01-01T10:00:00Z" (Some 7%Q) None None] 7 = [s1]
    /\ temperature_min s1 = Some 7%Q /\ temperature_max s1 = Some 7%Q.
Proof.
  unfold daily.
  apply (proj2 (proj2 (proj2 (proj2
           (daily_temperature_min_max fromisoformat_basic first_occurrence_order
              [] (Date 2024 1 1)))))
           VNone _ 7%Q (Date 2024 1 1) 7%Z);
    [reflexivity | reflexivity | lia].
Defined.

(** ** C2: the dominant condition of a day *)

(** [max(it, key=f)] yields the first element of the iteration whose key
    is largest: every element before it has a smaller key, no element
    after it a larger one. *)
Lemma max_by_fold (A : Type) (key : A -> nat) (r : list A) : forall x,
  let m := fold_left (fun m y => if key m <? key y then y else m) r x in
  exists pre post,
    x :: r = pre ++ m :: post
    /\ (forall y, In y pre -> key y < key m)
    /\ (forall y, In y post -> key y <= key m).
Proof.
  induction r as [| z r IH] using rev_ind; intros x; simpl.
  - exists [], []. split; [reflexivity |]. split; intros y [].
  - rewrite fold_left_app. simpl.
    destruct (IH x) as [pre [post [Heq [Hpre Hpost]]]].
    set (m := fold_left (fun m y => if key m <? key y then y else m) r x) in *.
    destruct (Nat.ltb_spec (key m) (key z)) as [Hlt | Hge].
    + exists (x :: r), []. split; [reflexivity |]. split.
      * intros y Hy. rewrite Heq in Hy. apply in_app_or in Hy.
        destruct Hy as [Hy | [<- | Hy]].
        -- specialize (Hpre y Hy). lia.
        -- exact Hlt.
        -- specialize (Hpost y Hy). lia.
      * intros y [].
    + exists pre, (post ++ [z]). split.
      * change (x :: r ++ [z]) with ((x :: r) ++ [z]).
        rewrite Heq, <- app_assoc. reflexivity.
      * split; [exact Hpre |].
        intros y Hy. apply in_app_or in Hy.
        destruct Hy as [Hy | [<- | []]]; [apply Hpost; exact Hy | exact Hge].
Qed.

(** The list the code collects in its loop is the list of condition codes
    of the daytime entries that have one. *)
Lemma daytime_conditions_votes fromisoformat group :
  daytime_conditions fromisoformat group = daytime_votes fromisoformat group.
Proof.
  unfold daytime_conditions, daytime_votes, in_daytime_window.
  induction group as [| h group IH]; [reflexivity |].
  cbn [flat_map filter]. rewrite IH.
  destruct (parse_timestamp fromisoformat (timestamp h)) as [dt |]; [| reflexivity].
  destruct ((6 <=? hour dt) && (hour dt <=? 18) && condition_set (condition h));
    reflexivity.
Qed.



(** The two condition fields of a summary, read off the code. *)
Lemma aggregate_condition fromisoformat set_iter first rest date :
  let s := _aggregate_daily_data fromisoformat set_iter (first :: rest) date in
  let votes := daytime_conditions fromisoformat (first :: rest) in
  (votes = [] -> daily_condition s = condition first /\ daily_icon s = icon first)
  /\ (votes <> [] ->
      daily_condition s
      = max_by (fun x => count_occ string_dec votes x) (set_iter votes)
      /\ daily_icon s = option_map _condition_to_icon (daily_condition s)).
Proof.
  unfold _aggregate_daily_data.
  destruct (daytime_conditions fromisoformat (first :: rest)); split;
    intros H; try discriminate; try (contradiction H; reflexivity);
    split; reflexivity.
Qed.




Example rainy_day_condition :
  daily_condition
    (_aggregate_daily_data fromisoformat_basic first_occurrence_order
       rainy_day (Date 2024 1 1)) = Some "rain"%string
  /\ daily_icon
       (_aggregate_daily_data fromisoformat_basic first_occurrence_order
          rainy_day (Date 2024 1 1)) = Some "rain"%string.
Proof. split; vm_compute; reflexivity. Qed.

(** ** The current-weather record: sensor.py and weather.py *)

Import Sensor Weather.

(** The field accessors of the weather entity read the normalized record
    and yield [None] in every other case; they never raise once the
    current-weather response is an object. *)
Lemma current_field_normalized f d key :
  current_field key (Some (Payload (VDict d) f))
  = Ok (record_field (normalize (dict_get d "weather")) key).
Proof.
  unfold current_field, get_current_weather; simpl.
  destruct (dict_get d "weather") as [| b | q | s | l | rec]; simpl;
    try reflexivity.
  - destruct b; reflexivity.
  - destruct (negb (Qeq_bool q 0)); reflexivity.
  - destruct (negb (String.eqb s "")); reflexivity.
  - destruct l as [| x l]; [reflexivity |]. simpl.
    destruct x as [| b | q | s | l' | rec]; simpl; try reflexivity.
    + destruct b; reflexivity.
    + destruct (negb (Qeq_bool q 0)); reflexivity.
    + destruct (negb (String.eqb s "")); reflexivity.
    + destruct l'; reflexivity.
    + destruct rec; reflexivity.
  - destruct rec; reflexivity.
Qed.

(** So does [_get_current_sensor_value], unless the array under
    ["weather"] starts with a true value that is not an object. *)
Lemma sensor_value_normalized f d key :
  head_is_object_or_false (dict_get d "weather") ->
  _get_current_sensor_value (Some (Payload (VDict d) f)) key
  = Ok (record_field (normalize (dict_get d "weather")) key).
Proof.
  unfold head_is_object_or_false, _get_current_sensor_value; simpl.
  destruct (dict_get d "weather") as [| b | q | s | l | rec]; simpl;
    intros Hhead; try reflexivity.
  - destruct b; reflexivity.
  - destruct (negb (Qeq_bool q 0)); reflexivity.
  - destruct (negb (String.eqb s "")); reflexivity.
  - destruct l as [| x l]; [reflexivity |]. simpl.
    destruct (truthy x) eqn:Hx; simpl.
    + destruct (Hhead x l eq_refl Hx) as [rec ->].
      destruct rec; [discriminate | reflexivity].
    + destruct x as [| b | q | s | l' | rec]; try reflexivity.
      destruct rec; [reflexivity | discriminate].
  - destruct rec; reflexivity.
Qed.

(** ** C5: the record under the "weather" key *)

(** C5, at the input where the code departs from it: an array under
    ["weather"] whose first element is not an object is a shape other than
    an object or an array of one record, yet [_get_current_sensor_value]
    raises [AttributeError] on it instead of yielding [None], as the
    accessors of the weather entity do on the same payload. The shapes
    the claim names behave as it says: an object and the one-element array
    of it give the same field, and an empty array, an empty object and a
    value that is neither an array nor an object give [None]. *)
Theorem sensor_value_array_of_non_object :
  _get_current_sensor_value (with_weather (VList [VNum 5])) "temperature"
  = Raise AttributeError
  /\ native_temperature (with_weather (VList [VNum 5])) = Ok VNone
  /\ (forall (rec : list (string * value)) (key : string),
        _get_current_sensor_value (with_weather (VList [VDict rec])) key
        = _get_current_sensor_value (with_weather (VDict rec)) key)
  /\ _get_current_sensor_value
       (with_weather (VDict [("temperature"%string, VNum 5)])) "temperature"
     = Ok (VNum 5)
  /\ (forall key, _get_current_sensor_value (with_weather (VList [])) key = Ok VNone)
  /\ (forall key, _get_current_sensor_value (with_weather (VDict [])) key = Ok VNone)
  /\ (forall w key,
        (forall l, w <> VList l) -> (forall rec, w <> VDict rec) ->
        _get_current_sensor_value (with_weather w) key = Ok VNone).
Proof.
  split; [reflexivity |]. split; [reflexivity |].
  split; [intros rec key; destruct rec; reflexivity |].
  split; [reflexivity |]. split; [reflexivity |]. split; [reflexivity |].
  intros w key Hl Hd. unfold with_weather, _get_current_sensor_value; simpl.
  destruct w as [| b | q | s | l | rec]; simpl.
  - reflexivity.
  - destruct b; reflexivity.
  - destruct (negb (Qeq_bool q 0)); reflexivity.
  - destruct (negb (String.eqb s "")); reflexivity.
  - contradiction (Hl l). reflexivity.
  - contradiction (Hd rec). reflexivity.
Qed.

(** ** C10: visibility in kilometres *)

Lemma visibility_normalized f d :
  visibility (Some (Payload (VDict d) f))
  = match record_field (normalize (dict_get d "weather")) "visibility" with
    | VNone => Ok VNone
    | v => try_except (truediv v 1000) (Ok VNone)
    end.
Proof.
  unfold visibility, get_current_weather; simpl.
  destruct (dict_get d "weather") as [| b | q | s | l | rec]; simpl;
    try reflexivity.
  - destruct b; reflexivity.
  - destruct (negb (Qeq_bool q 0)); reflexivity.
  - destruct (negb (String.eqb s "")); reflexivity.
  - destruct l as [| x l]; [reflexivity |]. simpl.
    destruct x as [| b | q | s | l' | rec]; simpl; try reflexivity.
    + destruct b; reflexivity.
    + destruct (negb (Qeq_bool q 0)); reflexivity.
    + destruct (negb (String.eqb s "")); reflexivity.
    + destruct l'; reflexivity.
    + destruct rec as [| b rec]; [reflexivity |]. simpl.
      destruct (dict_get (b :: rec) "visibility"); reflexivity.
  - destruct rec as [| b rec]; [reflexivity |]. simpl.
    destruct (dict_get (b :: rec) "visibility"); reflexivity.
Qed.



Example visibility_absent :
  visibility None = Ok VNone
  /\ visibility (with_weather (VDict [("temperature"%string, VNum 5)])) = Ok VNone
  /\ visibility (with_weather (VList [])) = Ok VNone
  /\ visibility (with_weather (VDict [("visibility"%string, VNone)])) = Ok VNone.
Proof. repeat split. Qed.

(** ** C7: malformed and missing fields *)

(** Whatever the record picked, the icon and condition steps of
    [condition], run under its [try], end in a string. *)
Lemma icon_then_condition_total item :
  exists c, try_except (icon_then_condition item) (Ok (VStr "sunny")) = Ok (VStr c).
Proof.
  unfold icon_then_condition.
  destruct item as [| b | q | s | l | rec]; simpl; try (eexists; reflexivity).
  destruct (truthy (dict_get rec "icon")).
  - destruct (dict_get rec "icon"); simpl; eexists; reflexivity.
  - simpl. destruct (truthy (dict_get rec "condition")).
    + destruct (dict_get rec "condition"); simpl; eexists; reflexivity.
    + eexists; reflexivity.
Qed.

Lemma icon_then_condition_default rec :
  truthy (dict_get rec "icon") = false ->
  truthy (dict_get rec "condition") = false ->
  icon_then_condition (VDict rec) = Ok (VStr "sunny").
Proof.
  unfold icon_then_condition; simpl. intros -> ->. reflexivity.
Qed.

Lemma condition_total f d :
  exists c, condition (Some (Payload (VDict d) f)) = Ok (VStr c).
Proof.
  unfold condition, get_current_weather; simpl.
  destruct (dict_get d "weather") as [| b | q | s | l | rec]; simpl;
    try (eexists; reflexivity).
  - destruct l as [| x l]; simpl; [eexists; reflexivity |].
    destruct (truthy x); simpl; [| eexists; reflexivity].
    apply icon_then_condition_total.
  - apply (icon_then_condition_total (VDict rec)).
Qed.

Lemma condition_default f d :
  truthy (record_field (normalize (dict_get d "weather")) "icon") = false ->
  truthy (record_field (normalize (dict_get d "weather")) "condition") = false ->
  condition (Some (Payload (VDict d) f)) = Ok (VStr "sunny").
Proof.
  unfold condition, get_current_weather; simpl.
  destruct (dict_get d "weather") as [| b | q | s | l | rec]; simpl;
    try reflexivity.
  - destruct l as [| x l]; simpl; [reflexivity |].
    destruct x as [| b | q | s | l' | rec]; simpl; try reflexivity.
    + destruct b; reflexivity.
    + destruct (negb (Qeq_bool q 0)); reflexivity.
    + destruct (negb (String.eqb s "")); reflexivity.
    + destruct l'; reflexivity.
    + destruct rec as [| b rec]; [reflexivity |]. simpl.
      intros Hi Hc. rewrite (icon_then_condition_default _ Hi Hc). reflexivity.
  - destruct rec as [| b rec]; simpl.
    + intros _ _. reflexivity.
    + intros Hi Hc. rewrite (icon_then_condition_default _ Hi Hc). reflexivity.
Qed.

(** C7, as stated, fails on its own example: with neither an icon nor a
    condition in the record, the presented condition is ["sunny"], not
    [None] and not ["unknown"]. *)
Lemma condition_degrades_counterexample :
  condition (with_weather (VDict [("temperature"%string, VNum 5)]))
  = Ok (VStr "sunny")
  /\ ~ (condition (with_weather (VDict [("temperature"%string, VNum 5)])) = Ok VNone
        \/ condition (with_weather (VDict [("temperature"%string, VNum 5)]))
           = Ok (VStr "unknown")).
Proof.
  split; [reflexivity |]. intros [H | H]; vm_compute in H; discriminate.
Qed.

(** C7, amended. Once the current-weather response is a JSON object, the
    accessors of the weather entity never raise, whatever is malformed or
    missing under ["weather"]: a field accessor yields the field of the
    record, [None] when the field or the record is missing; the visibility
    accessor yields a number or [None]; the presented condition is always a
    string, and it is the default ["sunny"] when the record has neither an
    icon nor a condition. The sensor accessor yields the same field, [None]
    when it is missing, as long as the array under ["weather"] does not
    start with a true value that is not an object. With no data at all,
    every accessor yields [None] and the condition is ["sunny"]. *)
Theorem accessors_degrade_per_field :
  forall (f : list hour_entry) (d : list (string * value)),
    let data := Some (Payload (VDict d) f) in
    let rec := normalize (dict_get d "weather") in
    (forall key, current_field key data = Ok (record_field rec key))
    /\ (exists v, visibility data = Ok v
                  /\ (v = VNone \/ exists q, v = VNum q)
                  /\ (record_field rec "visibility" = VNone -> v = VNone))
    /\ (exists c, condition data = Ok (VStr c))
    /\ (truthy (record_field rec "icon") = false ->
        truthy (record_field rec "condition") = false ->
        condition data = Ok (VStr "sunny"))
    /\ (forall key,
          head_is_object_or_false (dict_get d "weather") ->
          _get_current_sensor_value data key = Ok (record_field rec key))
    /\ (forall key, current_field key None = Ok VNone)
    /\ visibility None = Ok VNone
    /\ condition None = Ok (VStr "sunny")
    /\ (forall key, _get_current_sensor_value None key = Ok VNone).
Proof.
  intros f d data rec.
  split; [intros key; apply current_field_normalized |].
  split.
  { unfold data. rewrite visibility_normalized. fold rec.
    destruct (record_field rec "visibility") as [| b | q | s | l | r]; simpl;
      eexists; (split; [reflexivity |]);
      (split; [first [left; reflexivity | right; eexists; reflexivity]
              | first [reflexivity | discriminate]]). }
  split; [apply condition_total |].
  split; [apply condition_default |].
  split; [intros key; apply sensor_value_normalized |].
  repeat split.
Qed.

(** C7 on a record that has a temperature only. *)
Lemma accessors_degrade_per_field_witness :
  condition (with_weather (VDict [("temperature"%string, VNum 5)]))
  = Ok (VStr "sunny").
Proof.
  apply (proj1 (proj2 (proj2 (proj2
           (accessors_degrade_per_field []
              [("weather"%string, VDict [("temperature"%string, VNum 5)])])))));
    reflexivity.
Defined.

(** ** C6: a refresh that fails, a refresh that succeeds *)



(** ** C9: the scan interval handed to the coordinator *)

Import Init.




(** * Further properties of the code *)

(** ** Sums and averages of a day *)

Lemma fold_Qplus_acc l : forall a,
  (fold_left Qplus l a == a + fold_left Qplus l 0)%Q.
Proof.
  induction l as [| x l IH]; intros a; simpl.
  - lra.
  - rewrite (IH (a + x)%Q), (IH (0 + x)%Q). lra.
Qed.

Lemma sum_cons x l : (Py.sum (x :: l) == x + Py.sum l)%Q.
Proof.
  unfold Py.sum; simpl. rewrite (fold_Qplus_acc l (0 + x)%Q). lra.
Qed.

Lemma or_zero_value q : (or_zero (Some q) == q)%Q.
Proof.
  unfold or_zero. destruct (Qeq_bool q 0) eqn:E; [| reflexivity].
  apply Qeq_bool_eq in E. symmetry. exact E.
Qed.

Lemma sum_or_zero_present field group :
  (Py.sum (map (fun h => or_zero (field h)) group)
   == Py.sum (present field group))%Q.
Proof.
  induction group as [| h group IH]; [reflexivity |].
  cbn [map]. rewrite sum_cons, IH.
  unfold present; cbn [flat_map]. fold (present field group).
  destruct (field h) as [q |].
  - cbn [app]. rewrite sum_cons, or_zero_value. reflexivity.
  - cbn [app or_zero]. lra.
Qed.

(** The sum and average fields of a summary, read off the code. *)
Lemma aggregate_sums fromisoformat set_iter first rest date :
  let group := first :: rest in
  let s := _aggregate_daily_data fromisoformat set_iter group date in
  daily_precipitation s
  = Some (Py.sum (map (fun h => or_zero (precipitation h)) group))
  /\ daily_pressure_msl s = average (present pressure_msl group)
  /\ daily_relative_humidity s = average (present relative_humidity group)
  /\ daily_cloud_cover s = average (present cloud_cover group)
  /\ daily_wind_speed s = average (present wind_speed group)
  /\ daily_timestamp s = Some (noon date).
Proof.
  unfold _aggregate_daily_data.
  destruct (daytime_conditions fromisoformat (first :: rest));
    repeat split; reflexivity.
Qed.

(** The precipitation of a day is the sum of the precipitation values its
    entries report: an entry without one adds nothing, and the total is
    not negative when no reported value is. *)
Theorem daily_precipitation_total :
  forall (fromisoformat : string -> option datetime)
         (set_iter : list string -> list string)
         (first : hour_entry) (rest : list hour_entry) (date : date),
    exists total,
      daily_precipitation
        (_aggregate_daily_data fromisoformat set_iter (first :: rest) date)
      = Some total
      /\ (total == Py.sum (present precipitation (first :: rest)))%Q
      /\ ((forall p, In p (present precipitation (first :: rest)) -> (0 <= p)%Q) ->
          (0 <= total)%Q).
Proof.
  intros fi si first rest date.
  destruct (aggregate_sums fi si first rest date) as [Hp _].
  eexists. split; [exact Hp |].
  split; [apply sum_or_zero_present |].
  rewrite sum_or_zero_present.
  generalize (present precipitation (first :: rest)).
  intros l. induction l as [| x l IH]; intros Hpos.
  - unfold Py.sum; simpl. lra.
  - rewrite sum_cons.
    assert (0 <= x)%Q by (apply Hpos; left; reflexivity).
    assert (0 <= Py.sum l)%Q by (apply IH; intros p Hp'; apply Hpos; right; exact Hp').
    lra.
Qed.





(** The low of a day never exceeds its high, and a day has both or
    neither. *)
Theorem daily_low_not_above_high :
  forall (fromisoformat : string -> option datetime)
         (set_iter : list string -> list string)
         (group : list hour_entry) (date : date),
    let s := _aggregate_daily_data fromisoformat set_iter group date in
    (temperature_min s = None <-> temperature_max s = None)
    /\ (forall lo hi,
          temperature_min s = Some lo -> temperature_max s = Some hi ->
          (lo <= hi)%Q).
Proof.
  intros fi si group date s. subst s.
  destruct group as [| first rest].
  - simpl. split; [tauto | discriminate].
  - destruct (aggregate_temperature fi si first rest date) as [-> ->].
    destruct (present temperature (first :: rest)) as [| x r].
    + split; [tauto | discriminate].
    + destruct (min_fold r x) as [_ Hmin]. destruct (max_fold r x) as [_ Hmax].
      simpl. split; [split; discriminate |].
      intros lo hi [= <-] [= <-].
      apply Qle_trans with x; [apply Hmin | apply Hmax]; left; reflexivity.
Qed.

(** ** The daily forecast as a whole *)

Lemma slice_upto_map (A B : Type) (g : A -> B) (l : list A) (n : Z) :
  map g (slice_upto l n) = slice_upto (map g l) n.
Proof.
  unfold slice_upto. rewrite length_map.
  destruct (0 <=? n)%Z; symmetry; apply firstn_map.
Qed.

(** The daily forecast never holds more than [days] summaries. *)
Theorem daily_forecast_at_most_days :
  forall (fromisoformat : string -> option datetime)
         (set_iter : list string -> list string)
         (data : option payload) (days : Z),
    (0 <= days)%Z ->
    (Z.of_nat (List.length (get_daily_forecast fromisoformat set_iter data days))
     <= days)%Z.
Proof.
  intros fi si data days Hdays.
  rewrite get_daily_forecast_runs, slice_upto_length by exact Hdays. lia.
Qed.

(** Three days of data asked for two days. *)
Lemma daily_forecast_at_most_days_witness :
  (Z.of_nat
     (List.length
        (daily [ entry_at "2024-01-01T10:00:00Z" None None None;
                 entry_at "2024-01-02T10:00:00Z" None None None;
                 entry_at "2024-01-03T10:00:00Z" None None None ] 2))
   <= 2)%Z.
Proof.
  unfold daily.
  apply (daily_forecast_at_most_days fromisoformat_basic first_occurrence_order
           _ 2%Z).
  lia.
Defined.

(** Every summary of the daily forecast is stamped with noon of the date of
    its run; none is the empty dict, whose stamp would be missing. *)
Theorem daily_forecast_stamps :
  forall (fromisoformat : string -> option datetime)
         (set_iter : list string -> list string)
         (data : option payload) (days : Z),
    map daily_timestamp (get_daily_forecast fromisoformat set_iter data days)
    = slice_upto
        (map (fun r => Some (noon (fst r)))
           (group_runs
              (dated fromisoformat (get_hourly_forecast data (days * 24)))))
        days.
Proof.
  intros fi si data days.
  rewrite get_daily_forecast_runs, slice_upto_map. f_equal.
  pose proof (group_runs_nonempty
                (dated fi (get_hourly_forecast data (days * 24)))) as Hne.
  induction Hne as [| [d g] runs Hg _ IH]; [reflexivity |].
  cbn [summaries_of map fst snd] in *. f_equal; [| exact IH].
  destruct g as [| first rest]; [contradiction Hg; reflexivity |].
  destruct (aggregate_sums fi si first rest d) as [_ [_ [_ [_ [_ Hts]]]]].
  exact Hts.
Qed.

(** The daily forecast reads the first [days * 24] hourly entries only, and
    nothing of the current-weather response. *)
Theorem daily_forecast_reads_window_only :
  forall (fromisoformat : string -> option datetime)
         (set_iter : list string -> list string)
         (c c' : value) (hourly hourly' : list hour_entry) (days : Z),
    (0 <= days)%Z ->
    firstn (Z.to_nat (days * 24)) hourly = firstn (Z.to_nat (days * 24)) hourly' ->
    get_daily_forecast fromisoformat set_iter (Some (Payload c hourly)) days
    = get_daily_forecast fromisoformat set_iter (Some (Payload c' hourly')) days.
Proof.
  intros fi si c c' hourly hourly' days Hdays Hw.
  rewrite !get_daily_forecast_runs.
  unfold get_hourly_forecast, slice_upto at 2 4; cbn [forecast].
  destruct (Z.leb_spec 0 (days * 24)); [| lia].
  rewrite Hw. reflexivity.
Qed.

(** One day asked for: what comes after the first 24 entries is not read. *)
Lemma daily_forecast_reads_window_only_witness :
  get_daily_forecast fromisoformat_basic first_occurrence_order
    (Some (Payload VNone
             (repeat (entry_at "2024-01-01T10:00:00Z" None None None) 24
              ++ [entry_at "2024-01-02T10:00:00Z" None None None]))) 1
  = get_daily_forecast fromisoformat_basic first_occurrence_order
      (Some (Payload (VDict [])
               (repeat (entry_at "2024-01-01T10:00:00Z" None None None) 24))) 1.
Proof.
  apply (daily_forecast_reads_window_only fromisoformat_basic
           first_occurrence_order VNone (VDict []) _ _ 1%Z);
    [lia | reflexivity].
Defined.

Lemma group_runs_one_date d l :
  l <> [] -> (forall x, In x l -> fst x = d) ->
  group_runs l = [(d, map snd l)].
Proof.
  induction l as [| [d' h] l IH]; intros Hne Hall; [contradiction Hne; reflexivity |].
  assert (Hd : d' = d) by (apply (Hall (d', h)); left; reflexivity).
  subst d'. simpl. destruct l as [| x l].
  - reflexivity.
  - rewrite IH; [| discriminate | intros y Hy; apply Hall; right; exact Hy].
    rewrite date_eqb_refl. reflexivity.
Qed.

Lemma dated_entries fromisoformat l :
  map snd (dated fromisoformat l) = filter (parsable fromisoformat) l.
Proof.
  induction l as [| h l IH]; [reflexivity |].
  rewrite dated_cons. cbn [filter]. unfold parsable at 1.
  destruct (entry_date fromisoformat h); [cbn [map snd]; f_equal |]; exact IH.
Qed.

(** When the dated entries of the hourly window all fall on one date, the
    daily forecast is the single summary of that date, aggregated over all
    of them. *)
Theorem daily_forecast_of_one_day :
  forall (fromisoformat : string -> option datetime)
         (set_iter : list string -> list string)
         (data : option payload) (days : Z) (d : date) (h0 : hour_entry),
    (1 <= days)%Z ->
    In h0 (get_hourly_forecast data (days * 24)) ->
    entry_date fromisoformat h0 = Some d ->
    (forall h d',
        In h (get_hourly_forecast data (days * 24)) ->
        entry_date fromisoformat h = Some d' -> d' = d) ->
    get_daily_forecast fromisoformat set_iter data days
    = [ _aggregate_daily_data fromisoformat set_iter
          (filter (parsable fromisoformat) (get_hourly_forecast data (days * 24)))
          d ].
Proof.
  intros fi si data days d h0 Hdays Hin Hd Hall.
  rewrite get_daily_forecast_runs.
  set (window := get_hourly_forecast data (days * 24)) in *.
  rewrite (group_runs_one_date d (dated fi window)).
  - cbn [summaries_of map fst snd]. rewrite dated_entries.
    apply slice_upto_all. simpl. lia.
  - intros E. assert (Hx : In (d, h0) (dated fi window)) by (apply dated_In; auto).
    rewrite E in Hx. destruct Hx.
  - intros [d' h] Hx. apply dated_In in Hx. destruct Hx as [Hh Hd'].
    exact (Hall h d' Hh Hd').
Qed.

(** A day of two readings and one unreadable stamp. *)
Lemma daily_forecast_of_one_day_witness :
  daily [ entry_at "2024-01-01T10:00:00Z" (Some 1%Q) None None;
          entry_at "bad" (Some 9%Q) None None;
          entry_at "2024-01-01T14:00:00Z" (Some 3%Q) None None ] 7
  = [ _aggregate_daily_data fromisoformat_basic first_occurrence_order
        [ entry_at "2024-01-01T10:00:00Z" (Some 1%Q) None None;
          entry_at "2024-01-01T14:00:00Z" (Some 3%Q) None None ]
        (Date 2024 1 1) ].
Proof.
  unfold daily.
  apply (daily_forecast_of_one_day fromisoformat_basic first_occurrence_order
           (Some (Payload VNone
                    [ entry_at "2024-01-01T10:00:00Z" (Some 1%Q) None None;
                      entry_at "bad" (Some 9%Q) None None;
                      entry_at "2024-01-01T14:00:00Z" (Some 3%Q) None None ]))
           7%Z (Date 2024 1 1)
           (entry_at "2024-01-01T10:00:00Z" (Some 1%Q) None None)).
  - lia.
  - left; reflexivity.
  - reflexivity.
  - intros h d' [<- | [<- | [<- | []]]]; vm_compute; congruence.
Defined.

(** A condition code that strictly outnumbers every other code of the
    daytime entries is the condition of the day, whatever the order in
    which the set of codes is iterated. *)
Theorem strict_majority_condition :
  forall (fromisoformat : string -> option datetime)
         (set_iter : list string -> list string),
    (forall l x, In x (set_iter l) <-> In x l) ->
    forall (first : hour_entry) (rest : list hour_entry) (date : date) (c : string),
      let group := first :: rest in
      let votes := daytime_votes fromisoformat group in
      In c votes ->
      (forall x, In x votes -> x <> c ->
                 count_occ string_dec votes x < count_occ string_dec votes c) ->
      daily_condition (_aggregate_daily_data fromisoformat set_iter group date)
      = Some c
      /\ daily_icon (_aggregate_daily_data fromisoformat set_iter group date)
         = Some (_condition_to_icon c).
Proof.
  intros fi si Hset first rest date c group votes Hc Hmaj.
  destruct (aggregate_condition fi si first rest date) as [_ Hcons].
  fold group in Hcons. rewrite (daytime_conditions_votes fi group) in Hcons.
  fold votes in Hcons.
  assert (Hne : votes <> []) by (intros E; rewrite E in Hc; destruct Hc).
  destruct (Hcons Hne) as [Hcond Hicon]. clear Hcons.
  assert (Hscan : In c (si votes)) by (apply Hset; exact Hc).
  destruct (si votes) as [| x r] eqn:Es; [destruct Hscan |].
  destruct (max_by_fold string (fun y => count_occ string_dec votes y) r x)
    as [pre [post [Heq [Hpre Hpost]]]].
  unfold max_by in Hcond.
  set (m := fold_left
              (fun m y => if count_occ string_dec votes m <? count_occ string_dec votes y
                          then y else m) r x) in *.
  assert (Hm : m = c).
  { destruct (string_dec m c) as [E | Hmc]; [exact E | exfalso].
    assert (Hm_votes : In m votes).
    { apply Hset. rewrite Es, Heq. apply in_or_app. right; left; reflexivity. }
    specialize (Hmaj m Hm_votes Hmc).
    rewrite Heq in Hscan. apply in_app_or in Hscan.
    destruct Hscan as [Hin | [E | Hin]].
    - specialize (Hpre c Hin). simpl in Hpre. lia.
    - congruence.
    - specialize (Hpost c Hin). simpl in Hpost. lia. }
  rewrite Hicon, Hcond, Hm. split; reflexivity.
Qed.

(** Rain twice and dry once: rain, also when the set is iterated in the
    reverse order. *)
Lemma strict_majority_condition_witness :
  daily_condition
    (_aggregate_daily_data fromisoformat_basic
       (fun l => rev (nodup string_dec l)) rainy_day (Date 2024 1 1))
  = Some "rain"%string
  /\ daily_icon
       (_aggregate_daily_data fromisoformat_basic
          (fun l => rev (nodup string_dec l)) rainy_day (Date 2024 1 1))
     = Some (_condition_to_icon "rain").
Proof.
  apply (strict_majority_condition fromisoformat_basic
           (fun l => rev (nodup string_dec l))
           (fun l x => iff_trans (iff_sym (in_rev (nodup string_dec l) x))
                         (nodup_In string_dec l x))
           (entry_at "2024-01-01T05:00:00Z" None (Some "fog") (Some "fog"))%string
           (tl rainy_day) (Date 2024 1 1) "rain"%string).
  - vm_compute. tauto.
  - intros x Hx Hne. vm_compute in Hx.
    destruct Hx as [<- | [<- | [<- | []]]]; try congruence; vm_compute; lia.
Defined.

(** ** The daily forecast as the weather entity presents it *)

(** Deriving the icon of a condition code and presenting that icon gives
    what the condition table gives for the code itself, for every string:
    the two tables agree through [_condition_to_icon]. *)
Lemma icon_of_condition_presented (c : string) :
  table_get_opt ICON_MAP (Some (_condition_to_icon c)) "sunny"
  = table_get_opt CONDITION_MAP (Some c) "sunny".
Proof.
  unfold table_get_opt, _condition_to_icon, CONDITION_MAP. cbn [lookup].
  repeat
    match goal with
    | |- context [String.eqb c ?k] =>
        let E := fresh "E" in
        destruct (String.eqb c k) eqn:E; [reflexivity |]
    end.
  reflexivity.
Qed.

(** A day whose condition comes from its daytime entries is presented with
    the platform's condition for that code (["sunny"] for a code the table
    does not know); a day that falls back to its first entry is presented
    by that entry's icon, ["sunny"] when the icon is missing or unknown.
    The high of the day is its maximum, the low its minimum, and the low
    is not above the high. *)
Theorem daily_forecast_presented :
  forall (fromisoformat : string -> option datetime)
         (set_iter : list string -> list string)
         (first : hour_entry) (rest : list hour_entry) (date : date),
    let group := first :: rest in
    let s := _aggregate_daily_data fromisoformat set_iter group date in
    let fc := _map_daily_forecast s in
    (forall c,
        daytime_votes fromisoformat group <> [] ->
        daily_condition s = Some c ->
        fc_condition fc = table_get_opt CONDITION_MAP (Some c) "sunny")
    /\ (daytime_votes fromisoformat group = [] ->
        fc_condition fc = table_get_opt ICON_MAP (Coordinator.icon first) "sunny")
    /\ fc_datetime fc = noon date
    /\ (forall lo hi,
          fc_native_templow fc = Some lo -> fc_native_temperature fc = Some hi ->
          (lo <= hi)%Q).
Proof.
  intros fi si first rest date group s fc.
  destruct (aggregate_condition fi si first rest date) as [Hnil Hcons].
  fold group in Hnil, Hcons.
  rewrite (daytime_conditions_votes fi group) in Hnil, Hcons.
  fold s in Hnil, Hcons.
  split; [| split; [| split]].
  - intros c Hne Hc. destruct (Hcons Hne) as [_ Hi].
    unfold fc, _map_daily_forecast; cbn [fc_condition].
    rewrite Hi, Hc. apply icon_of_condition_presented.
  - intros Hv. destruct (Hnil Hv) as [_ Hi].
    unfold fc, _map_daily_forecast; cbn [fc_condition]. rewrite Hi. reflexivity.
  - destruct (aggregate_sums fi si first rest date) as [_ [_ [_ [_ [_ Hts]]]]].
    unfold fc, _map_daily_forecast; cbn [fc_datetime].
    fold group in Hts. fold s in Hts. rewrite Hts. reflexivity.
  - intros lo hi Hlo Hhi.
    destruct (aggregate_temperature fi si first rest date) as [Hmin Hmax].
    fold group in Hmin, Hmax. fold s in Hmin, Hmax.
    unfold fc, _map_daily_forecast in Hlo, Hhi.
    cbn [fc_native_templow fc_native_temperature] in Hlo, Hhi.
    rewrite Hmin in Hlo. rewrite Hmax in Hhi.
    destruct (present temperature group) as [| x r]; [discriminate |].
    destruct (min_fold r x) as [_ Hle]. destruct (max_fold r x) as [_ Hge].
    injection Hlo as <-. injection Hhi as <-.
    apply Qle_trans with x; [apply Hle | apply Hge]; left; reflexivity.
Qed.

(** The daily forecast of the weather entity is [None] exactly when none of
    the first 168 hourly entries carries a date; otherwise it holds one
    entry per summary of [get_daily_forecast], between one and seven. *)
Theorem async_forecast_daily_none_or_week :
  forall (fromisoformat : string -> option datetime)
         (set_iter : list string -> list string)
         (data : option payload),
    (_async_forecast_daily fromisoformat set_iter data = None
     <-> forall h, In h (get_hourly_forecast data 168) ->
                   entry_date fromisoformat h = None)
    /\ (forall l,
          _async_forecast_daily fromisoformat set_iter data = Some l ->
          l = map _map_daily_forecast
                (get_daily_forecast fromisoformat set_iter data 7)
          /\ 1 <= List.length l <= 7).
Proof.
  intros fi si data.
  pose proof (daily_forecast_at_most_days fi si data 7 ltac:(lia)) as Hmax.
  pose proof (get_daily_forecast_runs fi si data 7) as Hruns.
  change (7 * 24)%Z with 168%Z in Hruns.
  unfold _async_forecast_daily.
  destruct (get_daily_forecast fi si data 7) as [| s l] eqn:E.
  - split; [| discriminate]. split; [| reflexivity]. intros _ h Hin.
    destruct (entry_date fi h) as [d |] eqn:Hd; [exfalso | reflexivity].
    assert (Hx : In (d, h) (dated fi (get_hourly_forecast data 168)))
      by (apply dated_In; auto).
    assert (Hlen : List.length
                     (slice_upto
                        (summaries_of fi si
                           (group_runs (dated fi (get_hourly_forecast data 168))))
                        7) = 0)
      by (rewrite <- Hruns; reflexivity).
    rewrite slice_upto_length, summaries_length in Hlen by lia.
    destruct (group_runs (dated fi (get_hourly_forecast data 168))) eqn:Er.
    + apply group_runs_nil in Er. rewrite Er in Hx. destruct Hx.
    + simpl in Hlen. lia.
  - split.
    + split; [discriminate |]. intros Hnone. exfalso.
      assert (Hd : dated fi (get_hourly_forecast data 168) = []).
      { destruct (dated fi (get_hourly_forecast data 168)) as [| [d h] r] eqn:Ed;
          [reflexivity |].
        assert (Hx : In (d, h) (dated fi (get_hourly_forecast data 168)))
          by (rewrite Ed; left; reflexivity).
        apply dated_In in Hx. destruct Hx as [Hin Hdate].
        rewrite (Hnone h Hin) in Hdate. discriminate. }
      rewrite Hd in Hruns. simpl in Hruns. rewrite slice_upto_nil in Hruns.
      discriminate.
    + intros l' [= <-]. split; [reflexivity |].
      cbn [map List.length]. rewrite length_map.
      cbn [List.length] in Hmax. lia.
Qed.

(** ** What the sensor platform reads *)

(** When [_is_sensor_data_available] says no, every sensor reads [None];
    when it says yes, the value under ["weather"] is a non-empty array or
    a non-empty object. *)
Theorem unavailable_sensor_reads_none :
  forall (data : option payload),
    (_is_sensor_data_available data = Ok false ->
     forall key, _get_current_sensor_value data key = Ok VNone)
    /\ (_is_sensor_data_available data = Ok true ->
        exists p w,
          data = Some p /\ get (current p) "weather" = Ok w
          /\ ((exists x l, w = VList (x :: l)) \/ (exists b d, w = VDict (b :: d)))).
Proof.
  intros [p |]; [| split; [reflexivity | discriminate]].
  unfold _is_sensor_data_available, _get_current_sensor_value.
  destruct (get (current p) "weather") as [w | e] eqn:Hw; simpl;
    [| split; discriminate].
  split.
  - intros H key.
    destruct w as [| b | q | s | l | d]; simpl in *; try reflexivity.
    + destruct b; reflexivity.
    + destruct (negb (Qeq_bool q 0)); reflexivity.
    + destruct (negb (String.eqb s "")); reflexivity.
    + destruct l; [reflexivity | discriminate].
    + destruct d; [reflexivity | discriminate].
  - intros H. exists p, w. split; [reflexivity |]. split; [exact Hw |].
    destruct w as [| b | q | s | l | d]; simpl in *; try discriminate.
    + destruct b; discriminate.
    + destruct (negb (Qeq_bool q 0)); discriminate.
    + destruct (negb (String.eqb s "")); discriminate.
    + destruct l as [| x l]; [discriminate |]. left. exists x, l. reflexivity.
    + destruct d as [| b d]; [discriminate |]. right. exists b, d. reflexivity.
Qed.

(** Of an array under ["weather"] only the first element is read: two
    payloads whose arrays start alike give the same field, visibility,
    condition and sensor value. *)
Theorem only_first_array_element_read :
  forall (p p' : payload) (x : value) (rest rest' : list value),
    get (current p) "weather" = Ok (VList (x :: rest)) ->
    get (current p') "weather" = Ok (VList (x :: rest')) ->
    (forall key, current_field key (Some p) = current_field key (Some p'))
    /\ visibility (Some p) = visibility (Some p')
    /\ Weather.condition (Some p) = Weather.condition (Some p')
    /\ (forall key,
          _get_current_sensor_value (Some p) key
          = _get_current_sensor_value (Some p') key).
Proof.
  intros p p' x rest rest' Hp Hp'.
  unfold current_field, visibility, Weather.condition, _get_current_sensor_value,
    get_current_weather.
  rewrite Hp, Hp'. repeat split.
Qed.

(** A second, unrelated element changes nothing. *)
Lemma only_first_array_element_read_witness :
  visibility
    (with_weather (VList [VDict [("visibility"%string, VNum 5000)]; VNum 7]))
  = visibility (with_weather (VList [VDict [("visibility"%string, VNum 5000)]])).
Proof.
  apply (proj1 (proj2
           (only_first_array_element_read
              (Payload (VDict [("weather"%string,
                                VList [VDict [("visibility"%string, VNum 5000)]; VNum 7])])
                 [])
              (Payload (VDict [("weather"%string,
                                VList [VDict [("visibility"%string, VNum 5000)]])])
                 [])
              (VDict [("visibility"%string, VNum 5000)]) [VNum 7] []
              eq_refl eq_refl))).
Defined.

(** ** Sequences of refreshes *)

Lemma async_refresh_success self r p :
  fetched r = Some p ->
  async_refresh self r = CoordinatorState (Some p) false (error_log self).
Proof.
  unfold fetched, async_refresh, _async_update_data.
  destruct (current_response r) as [c | e]; [| discriminate].
  destruct (forecast_response r) as [f | e]; [| discriminate].
  intros [= <-]. reflexivity.
Qed.

Lemma async_refresh_failure self r :
  fetched r = None -> Coordinator.data (async_refresh self r) = Coordinator.data self.
Proof.
  unfold fetched, async_refresh, _async_update_data, on_error.
  destruct (current_response r) as [c | [t | t]];
    [destruct (forecast_response r) as [f | [t | t]]; [discriminate | |] | |];
    intros _; simpl; try reflexivity; destruct (_connect_error self); reflexivity.
Qed.

Lemma refreshes_failures self rs :
  (forall r, In r rs -> fetched r = None) ->
  Coordinator.data (refreshes self rs) = Coordinator.data self.
Proof.
  revert self. induction rs as [| r rs IH]; intros self Hall; [reflexivity |].
  unfold refreshes in *. cbn [fold_left].
  rewrite IH by (intros r' Hr'; apply Hall; right; exact Hr').
  apply async_refresh_failure. apply Hall. left; reflexivity.
Qed.

(** After any sequence of refreshes the stored payload is the one of the
    last refresh that succeeded, and the payload held at the start when
    none did. *)
Theorem stored_payload_is_last_success :
  forall (self : coordinator) (rs : list responses),
    ((forall r, In r rs -> fetched r = None) ->
     Coordinator.data (refreshes self rs) = Coordinator.data self)
    /\ (forall before r after p,
          rs = before ++ r :: after ->
          fetched r = Some p ->
          (forall r', In r' after -> fetched r' = None) ->
          Coordinator.data (refreshes self rs) = Some p).
Proof.
  intros self rs. split; [apply refreshes_failures |].
  intros before r after p -> Hr Hafter.
  unfold refreshes. rewrite fold_left_app. cbn [fold_left].
  fold (refreshes self before).
  fold (refreshes (async_refresh (refreshes self before) r) after).
  rewrite refreshes_failures by exact Hafter.
  rewrite (async_refresh_success _ r p Hr). reflexivity.
Qed.

(** A success between two failures: the payload of the success stays. *)
Lemma stored_payload_is_last_success_witness :
  Coordinator.data
    (refreshes (CoordinatorState None false [])
       [ Responses (inr (OtherError "boom")) (inl []);
         Responses (inl (VDict [])) (inl []);
         Responses (inl (VDict [])) (inr (ClientError "down")) ])
  = Some (Payload (VDict []) []).
Proof.
  apply (proj2 (stored_payload_is_last_success (CoordinatorState None false []) _)
           [Responses (inr (OtherError "boom")) (inl [])]
           (Responses (inl (VDict [])) (inl []))
           [Responses (inl (VDict [])) (inr (ClientError "down"))]
           (Payload (VDict []) []) eq_refl eq_refl).
  intros r' [<- | []]. reflexivity.
Defined.

Lemma transport_failure_flagged self r :
  transport_failure r -> _connect_error self = true -> async_refresh self r = self.
Proof.
  unfold transport_failure, first_failure, async_refresh, _async_update_data, on_error.
  intros [text H] Hflag.
  destruct (current_response r) as [c | e];
    [destruct (forecast_response r) as [f | e]; [discriminate |] |];
    injection H as ->; rewrite Hflag; reflexivity.
Qed.

Lemma transport_failure_unflagged self r :
  transport_failure r -> _connect_error self = false ->
  exists line,
    async_refresh self r
    = CoordinatorState (Coordinator.data self) true (error_log self ++ [line]).
Proof.
  unfold transport_failure, first_failure, async_refresh, _async_update_data, on_error.
  intros [text H] Hflag.
  destruct (current_response r) as [c | e];
    [destruct (forecast_response r) as [f | e]; [discriminate |] |];
    injection H as ->; rewrite Hflag; eexists; reflexivity.
Qed.

Lemma refreshes_flagged self rs :
  Forall transport_failure rs -> _connect_error self = true ->
  refreshes self rs = self.
Proof.
  intros Hall Hflag. induction Hall as [| r rs Hr _ IH]; [reflexivity |].
  unfold refreshes in *. cbn [fold_left].
  rewrite (transport_failure_flagged self r Hr Hflag). exact IH.
Qed.

(** A streak of transport errors writes one line to the error log, at its
    first refresh, when the flag was down, and none when the flag was up;
    the stored payload stays. A refresh that succeeds lowers the flag
    without logging, so that the next streak is logged again. *)
Theorem transport_error_streak_logged_once :
  forall (self : coordinator) (rs : list responses),
    rs <> [] ->
    Forall transport_failure rs ->
    (_connect_error self = false ->
     exists line,
       refreshes self rs
       = CoordinatorState (Coordinator.data self) true (error_log self ++ [line]))
    /\ (_connect_error self = true -> refreshes self rs = self)
    /\ (forall r p,
          fetched r = Some p ->
          _connect_error (async_refresh (refreshes self rs) r) = false
          /\ error_log (async_refresh (refreshes self rs) r)
             = error_log (refreshes self rs)).
Proof.
  intros self rs Hne Hall. split; [| split].
  - intros Hflag. destruct Hall as [| r rs Hr Hrs]; [contradiction Hne; reflexivity |].
    destruct (transport_failure_unflagged self r Hr Hflag) as [line Hstep].
    exists line. unfold refreshes. cbn [fold_left]. rewrite Hstep.
    apply (refreshes_flagged _ rs Hrs). reflexivity.
  - intros Hflag. apply refreshes_flagged; assumption.
  - intros r p Hr. rewrite (async_refresh_success _ r p Hr). split; reflexivity.
Qed.

(** Three transport errors in a row from a fresh coordinator: one line. *)
Lemma transport_error_streak_logged_once_witness :
  exists line,
    refreshes (CoordinatorState None false [])
      (repeat (Responses (inr (ClientError "down")) (inl [])) 3)
    = CoordinatorState None true [line].
Proof.
  apply (proj1 (transport_error_streak_logged_once
                  (CoordinatorState None false [])
                  (repeat (Responses (inr (ClientError "down")) (inl [])) 3)
                  ltac:(discriminate)
                  ltac:(repeat constructor; exists "down"%string; reflexivity))).
  reflexivity.
Defined.



